(** * react-native-swipe-list: gesture, animation and list coordination

  A shallow embedding of the swipeable row (pan-responder variant), of the
  quick-actions list that keeps track of the open row, and of the
  gesture-handler row of the left/right-actions variant, with the
  properties of their state machines.

  JavaScript numbers are represented by exact rationals ([Q]); the
  comparisons [>], [<] and [===] of the source become the boolean tests
  below, and numeric results are compared with [==]. *)

From Stdlib Require Import QArith Qabs Qminmax Lqa Lia Arith List String Bool.
Import ListNotations.

Set Implicit Arguments.

(** ** Numbers *)

Module JS.

Definition gt (x y : Q) : bool := negb (Qle_bool x y).
Definition lt (x y : Q) : bool := gt y x.
Definition strict_eq (x y : Q) : bool := Qeq_bool x y.
Definition abs (x : Q) : Q := Qabs x.

(** A default parameter value: [undefined] selects the default. *)
Definition orDefault {A} (default : A) (arg : option A) : A :=
  match arg with Some a => a | None => default end.

End JS.

Declare Scope js_scope.
Delimit Scope js_scope with js.
Infix ">?" := JS.gt (at level 70, no associativity) : js_scope.
Infix "<?" := JS.lt (at level 70, no associativity) : js_scope.
Infix "===" := JS.strict_eq (at level 70, no associativity) : js_scope.

(** ** The swipeable row (pan-responder variant) *)

Module Row.

Local Open Scope Q_scope.
Local Open Scope js_scope.

(** Position of the left of the swipable item when closed *)
Definition CLOSED_LEFT_POSITION : Q := 0.
(** Minimum swipe distance before we recognize it as such *)
Definition HORIZONTAL_SWIPE_DISTANCE_THRESHOLD : Q := 10.
(** Minimum swipe speed before we fully animate the user's action *)
Definition HORIZONTAL_FULL_SWIPE_SPEED_THRESHOLD : Q := 3 # 10.
(** Factor to divide by to get slow speed *)
Definition SLOW_SPEED_SWIPE_FACTOR : Q := 4.
(** Time, in milliseconds, of how long the animated swipe should be *)
Definition SWIPE_DURATION : Q := 300.
Definition ON_MOUNT_BOUNCE_DELAY : Q := 700.
Definition ON_MOUNT_BOUNCE_DURATION : Q := 400.
(** Distance left of closed position to bounce back when right-swiping *)
Definition RIGHT_SWIPE_BOUNCE_BACK_DISTANCE : Q := 30.
Definition RIGHT_SWIPE_BOUNCE_BACK_DURATION : Q := 300.
(** Max distance of right swipe to allow *)
Definition RIGHT_SWIPE_THRESHOLD : Q := 30 * SLOW_SPEED_SWIPE_FACTOR.

Record Props := {
  isOpen : bool;
  maxSwipeDistance : Q;
  preventSwipeRight : bool;
  shouldBounceOnMount : bool;
  swipeThreshold : Q
}.

(** The defaults of the destructured props. *)
Definition defaultProps : Props := {|
  isOpen := false;
  maxSwipeDistance := 0;
  preventSwipeRight := false;
  shouldBounceOnMount := false;
  swipeThreshold := 30
|}.

Record GestureState := { dx : Q; dy : Q; vx : Q }.

(** The callbacks of the props; a call is recorded as a notification to the
    parent. *)
Inductive Notification := onClose | onOpen | onSwipeEnd | onSwipeStart.

Definition Notification_eqb (a b : Notification) : bool :=
  match a, b with
  | onClose, onClose | onOpen, onOpen
  | onSwipeEnd, onSwipeEnd | onSwipeStart, onSwipeStart => true
  | _, _ => false
  end.

(** The function values handed to [_animateTo] as [callback]. *)
Inductive Function := emptyFunction | animateToClosedPositionDuringBounce.

(** The arrow function that [_animateTo] passes to [start]: it closes over
    [toValue] and [callback]. *)
Inductive EndCallback := animateTo_end (toValue : Q) (callback : Function).

(** Modelled from the spec: the host animation driver ([Animated.Value],
    [Animated.timing]) is not part of the repository.  An animation started
    on the live value supersedes the one in flight ("last animation start
    wins"); its completion callback is delivered when, and only when, it
    runs to completion.  What the host itself does to a superseded
    animation is in [HostRow]. *)
Record Timing := {
  timing_toValue : Q;
  timing_duration : Q;
  timing_end : EndCallback
}.

(** The mutable state of one mounted row: the ref [_previousLeft], the
    animated value [currentLeft] and the animation in flight on it. *)
Record State := {
  _previousLeft : Q;
  currentLeft : Q;
  inFlight : option Timing
}.

Definition initial : State :=
  {| _previousLeft := 0; currentLeft := 0; inFlight := None |}.

(** *** Handlers: state passing with a log of notifications *)

Definition Handler (A : Type) : Type :=
  State -> A * State * list Notification.

Definition ret {A} (a : A) : Handler A := fun s => (a, s, []).

Definition bind {A B} (m : Handler A) (k : A -> Handler B) : Handler B :=
  fun s =>
    let '(a, s1, l1) := m s in
    let '(b, s2, l2) := k a s1 in
    (b, s2, l1 ++ l2).

Definition get : Handler State := fun s => (s, s, []).
Definition notify (n : Notification) : Handler unit := fun s => (tt, s, [n]).

Definition set_previousLeft (v : Q) : Handler unit :=
  fun s => (tt, {| _previousLeft := v; currentLeft := currentLeft s;
                   inFlight := inFlight s |}, []).

(** Modelled from the spec: [currentLeft.setValue], a synchronous write of
    the live value by the host, with no queuing; starting an animation is
    the only way to supersede the one in flight. *)
Definition setValue (v : Q) : Handler unit :=
  fun s => (tt, {| _previousLeft := _previousLeft s; currentLeft := v;
                   inFlight := inFlight s |}, []).

(** Modelled from the spec: [Animated.timing(currentLeft, cfg).start(cb)],
    which replaces the animation in flight. *)
Definition Animated_timing_start (t : Timing) : Handler unit :=
  fun s => (tt, {| _previousLeft := _previousLeft s;
                   currentLeft := currentLeft s;
                   inFlight := Some t |}, []).

Definition exec {A} (m : Handler A) (s : State) : State := snd (fst (m s)).
Definition value {A} (m : Handler A) (s : State) : A := fst (fst (m s)).
Definition log {A} (m : Handler A) (s : State) : list Notification :=
  snd (m s).

Notation "x <- c1 ;; c2" := (bind c1 (fun x => c2))
  (at level 61, c1 at next level, right associativity).
Notation "c1 ;; c2" := (bind c1 (fun _ => c2))
  (at level 61, right associativity).

Section SwipeableRow.

(** [I18nManager.isRTL], read once at module scope. *)
Variable IS_RTL : bool.
Variable props : Props.

Definition _animateTo (toValue : Q) (duration : option Q)
    (callback : option Function) : Handler unit :=
  let duration := JS.orDefault SWIPE_DURATION duration in
  let callback := JS.orDefault emptyFunction callback in
  Animated_timing_start
    {| timing_toValue := toValue;
       timing_duration := duration;
       timing_end := animateTo_end toValue callback |}.

Definition _animateToOpenPositionWith (speed distMoved : Q) : Handler unit :=
  let speed :=
    if speed >? HORIZONTAL_FULL_SWIPE_SPEED_THRESHOLD
    then speed
    else HORIZONTAL_FULL_SWIPE_SPEED_THRESHOLD in
  let duration :=
    JS.abs ((maxSwipeDistance props - JS.abs distMoved) / speed) in
  let distance :=
    if IS_RTL then - maxSwipeDistance props else maxSwipeDistance props in
  _animateTo (- distance) (Some duration) None.

Definition _shouldAnimateRemainder (gestureState : GestureState) : bool :=
  (JS.abs (dx gestureState) >? swipeThreshold props)
  || (vx gestureState >? HORIZONTAL_FULL_SWIPE_SPEED_THRESHOLD).

Definition _animateToClosedPosition (duration : option Q) : Handler unit :=
  let duration := JS.orDefault SWIPE_DURATION duration in
  _animateTo CLOSED_LEFT_POSITION (Some duration) None.

Definition _animateToClosedPositionDuringBounce : Handler unit :=
  _animateToClosedPosition (Some RIGHT_SWIPE_BOUNCE_BACK_DURATION).

Definition _swipeFullSpeed (gestureState : GestureState) : Handler unit :=
  s <- get ;;
  setValue (_previousLeft s + dx gestureState).

Definition _swipeSlowSpeed (gestureState : GestureState) : Handler unit :=
  s <- get ;;
  setValue (_previousLeft s + dx gestureState / SLOW_SPEED_SWIPE_FACTOR).

Definition _isSwipingRightFromClosed (gestureState : GestureState)
    : Handler bool :=
  let gestureStateDx :=
    if IS_RTL then - dx gestureState else dx gestureState in
  s <- get ;;
  ret ((_previousLeft s === CLOSED_LEFT_POSITION) && (gestureStateDx >? 0)).

Definition _isSwipingExcessivelyRightFromClosedPosition
    (gestureState : GestureState) : Handler bool :=
  let gestureStateDx :=
    if IS_RTL then - dx gestureState else dx gestureState in
  right <- _isSwipingRightFromClosed gestureState ;;
  ret (right && (gestureStateDx >? RIGHT_SWIPE_THRESHOLD)).

Definition _handlePanResponderMove (gestureState : GestureState)
    : Handler unit :=
  excessive <- _isSwipingExcessivelyRightFromClosedPosition gestureState ;;
  if excessive then ret tt
  else
    notify onSwipeStart ;;
    right <- _isSwipingRightFromClosed gestureState ;;
    if right then _swipeSlowSpeed gestureState
    else _swipeFullSpeed gestureState.

(** Ignore swipes due to user's finger moving slightly when tapping *)
Definition _isValidSwipe (gestureState : GestureState) : Handler bool :=
  s <- get ;;
  if preventSwipeRight props
     && (_previousLeft s === CLOSED_LEFT_POSITION)
     && (dx gestureState >? 0)
  then ret false
  else ret (JS.abs (dx gestureState) >? HORIZONTAL_SWIPE_DISTANCE_THRESHOLD).

(** Decides whether a swipe is responded to by this component or its child *)
Definition _handleMoveShouldSetPanResponderCapture
    (gestureState : GestureState) : Handler bool :=
  if dy gestureState <? 10 then _isValidSwipe gestureState else ret false.

Definition _animateBounceBack (duration : Q) : Handler unit :=
  let swipeBounceBackDistance :=
    if IS_RTL
    then - RIGHT_SWIPE_BOUNCE_BACK_DISTANCE
    else RIGHT_SWIPE_BOUNCE_BACK_DISTANCE in
  _animateTo (- swipeBounceBackDistance) (Some duration)
    (Some animateToClosedPositionDuringBounce).

Definition _animateToOpenPosition : Handler unit :=
  let distance :=
    if IS_RTL then - maxSwipeDistance props else maxSwipeDistance props in
  _animateTo (- distance) None None.

Definition _handlePanResponderEnd (gestureState : GestureState)
    : Handler unit :=
  let horizontalDistance :=
    if IS_RTL then - dx gestureState else dx gestureState in
  right <- _isSwipingRightFromClosed gestureState ;;
  (if right then
     notify onOpen ;;
     _animateBounceBack RIGHT_SWIPE_BOUNCE_BACK_DURATION
   else if _shouldAnimateRemainder gestureState then
     if horizontalDistance <? 0 then
       (* Swiped left *)
       notify onOpen ;;
       _animateToOpenPositionWith (vx gestureState) horizontalDistance
     else
       (* Swiped right *)
       notify onClose ;;
       _animateToClosedPosition None
   else
     s <- get ;;
     if _previousLeft s === CLOSED_LEFT_POSITION
     then _animateToClosedPosition None
     else _animateToOpenPosition) ;;
  notify onSwipeEnd.

(** The body of the timer set by the mount effect. *)
Definition mountBounce : Handler unit :=
  if shouldBounceOnMount props
  then _animateBounceBack ON_MOUNT_BOUNCE_DURATION
  else ret tt.

(** The effect that reconciles the row with [isOpen]. *)
Definition isOpenEffect : Handler unit :=
  if negb (isOpen props)
  then _animateToClosedPosition None
  else _animateToOpenPosition.

(** Calling a function value handed over as [callback]. *)
Definition call (f : Function) : Handler unit :=
  match f with
  | emptyFunction => ret tt
  | animateToClosedPositionDuringBounce =>
      _animateToClosedPositionDuringBounce
  end.

(** The body of the arrow function passed to [start] in [_animateTo]. *)
Definition call_end (cb : EndCallback) : Handler unit :=
  match cb with
  | animateTo_end toValue callback =>
      set_previousLeft toValue ;;
      call callback
  end.

(** Modelled from the spec: completion of the animation in flight, delivered
    by the host; the live value has reached the target and the completion
    callback runs.  With nothing in flight there is nothing to deliver. *)
Definition Animated_timing_end : Handler unit :=
  s <- get ;;
  match inFlight s with
  | None => ret tt
  | Some t =>
      (fun s => (tt, {| _previousLeft := _previousLeft s;
                        currentLeft := timing_toValue t;
                        inFlight := None |}, [])) ;;
      call_end (timing_end t)
  end.

(** What can happen to a mounted row. *)
Inductive Event :=
| onPanResponderMove (gestureState : GestureState)
| onPanResponderRelease (gestureState : GestureState)
| onPanResponderTerminate (gestureState : GestureState)
| animationEnd
| mountBounceTimer
| isOpenChanged.

Definition fire (e : Event) : Handler unit :=
  match e with
  | onPanResponderMove g => _handlePanResponderMove g
  | onPanResponderRelease g => _handlePanResponderEnd g
  | onPanResponderTerminate g => _handlePanResponderEnd g
  | animationEnd => Animated_timing_end
  | mountBounceTimer => mountBounce
  | isOpenChanged => isOpenEffect
  end.

End SwipeableRow.

(** A history of a row: events, each under the props of its render. *)
Fixpoint run (IS_RTL : bool) (es : list (Props * Event)) : Handler unit :=
  match es with
  | [] => ret tt
  | (props, e) :: es' => fire IS_RTL props e ;; run IS_RTL es'
  end.

(** Letting the animation in flight, and those chained to it, complete. *)
Fixpoint settle (fuel : nat) : Handler unit :=
  match fuel with
  | O => ret tt
  | S fuel' =>
      s <- get ;;
      match inFlight s with
      | None => ret tt
      | Some _ => Animated_timing_end ;; settle fuel'
      end
  end.

(** *** Vocabulary of the statements *)

(** A horizontal measurement with its sign flipped under right-to-left. *)
Definition directionCorrected (IS_RTL : bool) (x : Q) : Q :=
  if IS_RTL then - x else x.

(** The animation [_animateTo toValue duration callback] starts. *)
Definition animation (toValue duration : Q) (callback : Function) : Timing :=
  {| timing_toValue := toValue;
     timing_duration := duration;
     timing_end := animateTo_end toValue callback |}.

(** The state once [t] has been started on the live value. *)
Definition started (t : Timing) (s : State) : State :=
  {| _previousLeft := _previousLeft s;
     currentLeft := currentLeft s;
     inFlight := Some t |}.

(** The fully open offset. *)
Definition openOffset (IS_RTL : bool) (props : Props) : Q :=
  - directionCorrected IS_RTL (maxSwipeDistance props).

(** The states a mounted row can be in. *)
Definition reachable (IS_RTL : bool) (s : State) : Prop :=
  exists es, s = exec (run IS_RTL es) initial.

(** The completion callback in flight writes the target of its animation. *)
Definition wellFormed (s : State) : Prop :=
  forall t, inFlight s = Some t ->
  exists callback, timing_end t = animateTo_end (timing_toValue t) callback.

(** A release followed by the completion of the animations it starts. *)
Definition releaseAndSettle (IS_RTL : bool) (props : Props)
    (g : GestureState) : Handler unit :=
  _handlePanResponderEnd IS_RTL props g ;; settle 2.

(** Gestures and states of the examples. *)
Definition swipeUpLeft : GestureState := {| dx := -50; dy := -1000; vx := 0 |}.
Definition swipeLeft : GestureState := {| dx := -40; dy := 2; vx := 1 # 2 |}.
Definition nudgeLeft : GestureState := {| dx := -20; dy := 0; vx := 0 |}.
Definition nudgeRight : GestureState := {| dx := 20; dy := 0; vx := 0 |}.
Definition dragRight : GestureState := {| dx := 200; dy := 0; vx := 0 |}.
Definition wideProps : Props := {|
  isOpen := false;
  maxSwipeDistance := 80;
  preventSwipeRight := false;
  shouldBounceOnMount := false;
  swipeThreshold := 30
|}.
Definition openState : State :=
  {| _previousLeft := -80; currentLeft := -80; inFlight := None |}.

(** A history of a row whose props do not change. *)
Definition runWith (IS_RTL : bool) (props : Props) (es : list Event)
    : Handler unit :=
  run IS_RTL (map (fun e => (props, e)) es).

(** The offsets an animation of the row can target: closed, fully open,
    and the overshoot of the bounce. *)
Definition isRestOffset (IS_RTL : bool) (props : Props) (v : Q) : Prop :=
  v == CLOSED_LEFT_POSITION \/
  v == openOffset IS_RTL props \/
  v == - directionCorrected IS_RTL RIGHT_SWIPE_BOUNCE_BACK_DISTANCE.

(** The drag of one gesture: its moves, in order. *)
Definition drag (IS_RTL : bool) (props : Props) (gs : list GestureState)
    : Handler unit :=
  runWith IS_RTL props (map onPanResponderMove gs).

Definition bounceProps : Props := {|
  isOpen := true;
  maxSwipeDistance := 80;
  preventSwipeRight := true;
  shouldBounceOnMount := true;
  swipeThreshold := 30
|}.
Definition flingRight : GestureState := {| dx := 60; dy := 0; vx := 1 |}.

End Row.

(** ** The quick-actions list *)

Module QuickActionsList.

Local Open Scope Q_scope.

(** [React.ReactText]: a string, or a number (here always an item index). *)
Inductive ReactText := text (s : string) | number (n : nat).

(** [a === b] on keys. *)
Definition ReactText_eqb (a b : ReactText) : bool :=
  match a, b with
  | text s, text t => String.eqb s t
  | number n, number m => Nat.eqb n m
  | _, _ => false
  end.

(** [key === openRowKey], where [openRowKey] may be [null]. *)
Definition strict_eq_nullable (key : ReactText) (openRowKey : option ReactText)
    : bool :=
  match openRowKey with
  | Some k => ReactText_eqb key k
  | None => false
  end.

(** The handle of the mounted [FlatList], with the native prop the list
    sets on it. *)
Record FlatList := { scrollEnabled : bool }.

Record State := {
  openRowKey : option ReactText;
  _flatListRef : option FlatList
}.

Definition initial : State :=
  {| openRowKey := None; _flatListRef := None |}.

Definition setOpenRowKey (k : option ReactText) (st : State) : State :=
  {| openRowKey := k; _flatListRef := _flatListRef st |}.

Section SwipeableFlatList.

Variables ItemT ReactNode : Type.

Record ListRenderItemInfo := { item : ItemT; index : nat }.

Inductive MaxSwipeDistance :=
| fixedDistance (d : Q)
| distanceOf (f : ListRenderItemInfo -> Q).

(** The props the component reads.  A renderer yields [None] for a falsy
    node; [onScroll] tells whether the caller supplied a handler. *)
Record Props := {
  bounceFirstRowOnMount : bool;
  maxSwipeDistance : option MaxSwipeDistance;
  renderQuickActions : option (ListRenderItemInfo -> option ReactNode);
  keyExtractor : option (ItemT -> nat -> string);
  renderItem : option (ListRenderItemInfo -> option ReactNode);
  onScroll : bool
}.

(** The props handed to a rendered [SwipeableRow]; the callbacks are the
    closures over the list's state updates. *)
Record RowElement := {
  slideoutView : ReactNode;
  rowProps : Row.Props;
  onOpen : State -> State;
  onClose : State -> State;
  onSwipeEnd : State -> State;
  onSwipeStart : State -> State;
  children : option ReactNode
}.

Inductive Element :=
| plainItem (rendered : option ReactNode)
| SwipeableRow (row : RowElement).

Variable props : Props.

Definition _onScroll (st : State) : State * bool :=
  (* Close any opens rows on ListView scroll *)
  let st' :=
    match openRowKey st with
    | Some _ => setOpenRowKey None st
    | None => st
    end in
  (st', onScroll props).

(** This enables rows having variable width slideoutView. *)
Definition _getMaxSwipeDistance (info : ListRenderItemInfo) : Q :=
  match maxSwipeDistance props with
  | Some (distanceOf f) => f info
  | Some (fixedDistance d) => if Qeq_bool d 0 then 50 else d
  | None => 50
  end.

Definition _setListViewScrollableTo (value : bool) (st : State) : State :=
  match _flatListRef st with
  | Some _ =>
      {| openRowKey := openRowKey st;
         _flatListRef := Some {| scrollEnabled := value |} |}
  | None => st
  end.

Definition _setListViewScrollable : State -> State :=
  _setListViewScrollableTo true.

Definition _setListViewNotScrollable : State -> State :=
  _setListViewScrollableTo false.

Definition _onOpen (key : ReactText) : State -> State :=
  setOpenRowKey (Some key).

Definition _onClose (_key : ReactText) : State -> State :=
  setOpenRowKey None.

Definition keyOf (info : ListRenderItemInfo) : ReactText :=
  match keyExtractor props with
  | Some f => text (f (item info) (index info))
  | None => number (index info)
  end.

Definition _renderItem (st : State) (info : ListRenderItemInfo) : Element :=
  let renderQuickActions :=
    JS.orDefault (fun _ => None) (renderQuickActions props) in
  let slideoutView := renderQuickActions info in
  let key := keyOf info in
  match slideoutView with
  | None =>
      (* renderQuickActions is unspecified or returns falsey: no swipe *)
      plainItem
        match renderItem props with
        | Some f => f info
        | None => None
        end
  | Some slideoutView =>
      SwipeableRow
        {| slideoutView := slideoutView;
           rowProps :=
             {| Row.isOpen := strict_eq_nullable key (openRowKey st);
                Row.maxSwipeDistance := _getMaxSwipeDistance info;
                Row.preventSwipeRight := Row.preventSwipeRight Row.defaultProps;
                Row.shouldBounceOnMount := bounceFirstRowOnMount props;
                Row.swipeThreshold := Row.swipeThreshold Row.defaultProps |};
           onOpen := _onOpen key;
           onClose := _onClose key;
           onSwipeEnd := _setListViewScrollable;
           onSwipeStart := _setListViewNotScrollable;
           children :=
             match renderItem props with
             | Some f => f info
             | None => None
             end |}
  end.

(** The [ref] callback of the [FlatList]. *)
Definition attachRef (ref : option FlatList) (st : State) : State :=
  match ref with
  | Some r => {| openRowKey := openRowKey st; _flatListRef := Some r |}
  | None => st
  end.

(** The items of the rendered window, with their indices. *)
Fixpoint infosFrom (i : nat) (data : list ItemT) : list ListRenderItemInfo :=
  match data with
  | [] => []
  | x :: data' => {| item := x; index := i |} :: infosFrom (S i) data'
  end.

Definition render (st : State) (infos : list ListRenderItemInfo)
    : list Element :=
  map (_renderItem st) infos.

(** The rows of a rendering that were handed [isOpen = true]. *)
Definition isOpenRow (e : Element) : bool :=
  match e with
  | SwipeableRow r => Row.isOpen (rowProps r)
  | plainItem _ => false
  end.

Definition openRows (es : list Element) : nat :=
  List.length (filter isOpenRow es).

(** The state changes: a scroll event, the ref callback, or a callback of
    a row of the current rendering. *)
Inductive step (infos : list ListRenderItemInfo) : State -> State -> Prop :=
| step_scroll st :
    step infos st (fst (_onScroll st))
| step_ref st ref :
    step infos st (attachRef ref st)
| step_row st r callback :
    In (SwipeableRow r) (render st infos) ->
    In callback [onOpen r; onClose r; onSwipeEnd r; onSwipeStart r] ->
    step infos st (callback st).

Inductive reachable (infos : list ListRenderItemInfo) : State -> Prop :=
| reachable_initial : reachable infos initial
| reachable_step st st' :
    reachable infos st -> step infos st st' -> reachable infos st'.

End SwipeableFlatList.

(** Pairwise distinct keys, as a test. *)
Fixpoint distinctKeys (keys : list ReactText) : bool :=
  match keys with
  | [] => true
  | k :: keys' => negb (existsb (ReactText_eqb k) keys') && distinctKeys keys'
  end.

(** The callbacks of a rendered row, as the row invokes them: a
    notification of the row runs the closure the list handed over. *)
Definition deliver {ReactNode : Type} (r : RowElement ReactNode)
    (n : Row.Notification) : State -> State :=
  match n with
  | Row.onOpen => onOpen r
  | Row.onClose => onClose r
  | Row.onSwipeEnd => onSwipeEnd r
  | Row.onSwipeStart => onSwipeStart r
  end.

Definition deliverAll {ReactNode : Type} (r : RowElement ReactNode)
    (ns : list Row.Notification) (st : State) : State :=
  fold_left (fun st n => deliver r n st) ns st.

(** The rows of a rendering that were told to bounce on mount. *)
Definition bouncesOnMount {ReactNode : Type} (e : Element ReactNode) : bool :=
  match e with
  | SwipeableRow r => Row.shouldBounceOnMount (rowProps r)
  | plainItem _ => false
  end.

Definition isSwipeableRow {ReactNode : Type} (e : Element ReactNode) : bool :=
  match e with
  | SwipeableRow _ => true
  | plainItem _ => false
  end.

(** A list whose items are their own keys, two of them equal, every item
    with quick actions; and a list keyed by index. *)
Definition keyedByItem : Props string unit := {|
  bounceFirstRowOnMount := false;
  maxSwipeDistance := None;
  renderQuickActions := Some (fun _ => Some tt);
  keyExtractor := Some (fun item _ => item);
  renderItem := None;
  onScroll := false
|}.

Definition keyedByIndex : Props string unit := {|
  bounceFirstRowOnMount := false;
  maxSwipeDistance := None;
  renderQuickActions := Some (fun _ => Some tt);
  keyExtractor := None;
  renderItem := None;
  onScroll := false
|}.

Definition twoAlike : list (ListRenderItemInfo string) :=
  infosFrom 0 ["a"; "a"]%string.

End QuickActionsList.

(** ** The left/right-actions variant *)

(** The row that delegates swiping to the gesture-handler [Swipeable]. *)
Module ActionsRow.

Record Props := {
  isScrolling : bool;
  closeOnScroll : bool
}.

(** How a call completes: normally, or by throwing. *)
Inductive Error := TypeError.

Inductive Completion (A : Type) :=
| normal (a : A)
| throw (e : Error).

Arguments normal {A} a.
Arguments throw {A} e.

(** The calls a row makes, in order. *)
Inductive Call := close_called | Swipeable_close_called.

Definition Call_eqb (a b : Call) : bool :=
  match a, b with
  | close_called, close_called => true
  | Swipeable_close_called, Swipeable_close_called => true
  | _, _ => false
  end.

Section SwipeableRow.

(** The handle of the third-party [Swipeable] and its [close] method. *)
Variable Swipeable : Type.
Variable Swipeable_close : Swipeable -> Swipeable.

(** The ref [rowRef], and the dependencies [closeOnScroll, isScrolling] of
    the last run of the effect ([None] before the first render). *)
Record State := {
  rowRef : option Swipeable;
  effectDeps : option (bool * bool)
}.

Definition Outcome : Type := Completion State * list Call.

(** [rowRef.current.close()]: a method call on the ref's content, which
    throws when there is none. *)
Definition rowRef_current_close (st : State) : Outcome :=
  match rowRef st with
  | Some h =>
      (normal {| rowRef := Some (Swipeable_close h);
                 effectDeps := effectDeps st |},
       [Swipeable_close_called])
  | None => (throw TypeError, [])
  end.

Definition close (st : State) : Outcome :=
  match rowRef st with
  | None => (normal st, [close_called])
  | Some _ =>
      let '(c, calls) := rowRef_current_close st in
      (c, close_called :: calls)
  end.

(** The body of the effect. *)
Definition effect (props : Props) (st : State) : Outcome :=
  if isScrolling props && closeOnScroll props
  then close st
  else (normal st, []).

Definition depsChanged (old : option (bool * bool)) (new : bool * bool)
    : bool :=
  match old with
  | None => true
  | Some (c, s) => negb (Bool.eqb c (fst new) && Bool.eqb s (snd new))
  end.

(** A render of the row: the ref callback stores the handle, then the
    effect runs if its dependencies changed. *)
Definition render (props : Props) (ref : option Swipeable) (st : State)
    : Outcome :=
  let deps := (closeOnScroll props, isScrolling props) in
  let st' := {| rowRef := ref; effectDeps := Some deps |} in
  if depsChanged (effectDeps st) deps
  then effect props st'
  else (normal st', []).

End SwipeableRow.

End ActionsRow.

(** The list of the left/right-actions variant. *)
Module ActionsList.

Record Props := {
  closeOnScroll : option bool;
  onScrollBeginDrag : bool;
  onScrollEndDrag : bool
}.

(** The caller's handlers a scroll event is forwarded to. *)
Inductive Forwarded := to_onScrollBeginDrag | to_onScrollEndDrag.

Record State := { isScrolling : bool }.

Definition initial : State := {| isScrolling := false |}.

Section SwipeableFlatList.

Variable props : Props.

Definition _onScrollBeginDrag (st : State) : State * list Forwarded :=
  (if negb (isScrolling st) then {| isScrolling := true |} else st,
   if onScrollBeginDrag props then [to_onScrollBeginDrag] else []).

Definition _onScrollEndDrag (st : State) : State * list Forwarded :=
  (if isScrolling st then {| isScrolling := false |} else st,
   if onScrollBeginDrag props then [to_onScrollBeginDrag] else []).

(** The props every rendered row receives. *)
Definition _renderItem (st : State) : ActionsRow.Props :=
  let closeOnScroll := JS.orDefault true (closeOnScroll props) in
  {| ActionsRow.isScrolling := isScrolling st;
     ActionsRow.closeOnScroll := closeOnScroll |}.

End SwipeableFlatList.

(** The drag events of the list, and a history of them. *)
Inductive ScrollEvent := scrollBeginDrag | scrollEndDrag.

Definition onScrollEvent (props : Props) (e : ScrollEvent) (st : State)
    : State * list Forwarded :=
  match e with
  | scrollBeginDrag => _onScrollBeginDrag props st
  | scrollEndDrag => _onScrollEndDrag props st
  end.

Fixpoint scroll (props : Props) (es : list ScrollEvent) (st : State)
    : State * list Forwarded :=
  match es with
  | [] => (st, [])
  | e :: es' =>
      let '(st1, l1) := onScrollEvent props e st in
      let '(st2, l2) := scroll props es' st1 in
      (st2, l1 ++ l2)
  end.

End ActionsList.

(** ** The quick-actions container and its buttons *)

(** The container that lays the buttons out with dividers between them. *)
Module QuickActions.

Section SwipeableQuickActions.

Variable ReactNode : Type.

(** [children]: an array of nodes, or anything else. *)
Inductive Children :=
| array (children : list ReactNode)
| notArray (children : ReactNode).

(** What the container renders in its row: a child, or a divider [View]
    with its key. *)
Inductive Button :=
| child (node : ReactNode)
| divider (key : nat).

(** The loop over [children], from index [i]; [rest] holds
    [children[i]], [children[i+1]], ... and [length] is [children.length]. *)
Fixpoint pushFrom (i length : nat) (rest : list ReactNode) : list Button :=
  match rest with
  | [] => []
  | c :: rest' =>
      child c ::
      (if (i <? length - 1)%nat
       then (* Not last button *) [divider i]
       else []) ++
      pushFrom (S i) length rest'
  end.

Definition buttons (children : Children) : list Button :=
  match children with
  | array children => pushFrom 0 (List.length children) children
  | notArray children => (* 1 child *) [child children]
  end.

(** The children and the divider keys of a rendering, in order. *)
Fixpoint childrenOf (bs : list Button) : list ReactNode :=
  match bs with
  | [] => []
  | child c :: bs' => c :: childrenOf bs'
  | divider _ :: bs' => childrenOf bs'
  end.

Fixpoint dividerKeys (bs : list Button) : list nat :=
  match bs with
  | [] => []
  | child _ :: bs' => dividerKeys bs'
  | divider k :: bs' => k :: dividerKeys bs'
  end.

End SwipeableQuickActions.

End QuickActions.

(** The standard quick action button. *)
Module QuickActionButton.

Section SwipeableQuickActionButton.

(** The payloads the button only passes on. *)
Variables Object Style Callback : Type.

(** [imageSource]: a resource number, or a source object. *)
Inductive ImageSource := resource (id : Q) | sourceObject (o : Object).

(** [text]: a string, an object, or an array of them. *)
Inductive TextValue :=
| textString (s : string)
| textObject (o : Object)
| textArray (items : list (string + Object)).

Record Props := {
  accessibilityLabel : option string;
  imageSource : option ImageSource;
  imageStyle : option Style;
  onPress : option Callback;
  style : option Style;
  testID : option string;
  text : option TextValue;
  textStyle : option Style
}.

(** Truthiness of the two props the button tests. *)
Definition truthyImageSource (i : option ImageSource) : bool :=
  match i with
  | None => false
  | Some (resource id) => negb (Qeq_bool id 0)
  | Some (sourceObject _) => true
  end.

Definition truthyText (t : option TextValue) : bool :=
  match t with
  | None => false
  | Some (textString s) => negb (String.eqb s "")
  | Some (textObject _) => true
  | Some (textArray _) => true
  end.

Record Image := {
  image_accessibilityLabel : option string;
  image_source : ImageSource;
  image_style : option Style
}.

Record Text := {
  text_style : option Style;
  text_children : option TextValue
}.

(** The [TouchableHighlight] with its [View]: the optional image, then the
    text. *)
Record TouchableHighlight := {
  touchable_onPress : option Callback;
  touchable_testID : option string;
  underlayColor : string;
  view_style : option Style;
  view_image : option Image;
  view_text : Text
}.

Definition SwipeableQuickActionButton (props : Props)
    : option TouchableHighlight :=
  if negb (truthyImageSource (imageSource props))
     && negb (truthyText (text props))
  then None
  else
    Some
      {| touchable_onPress := onPress props;
         touchable_testID := testID props;
         underlayColor := "transparent";
         view_style := style props;
         view_image :=
           match imageSource props with
           | Some source =>
               if truthyImageSource (imageSource props)
               then Some {| image_accessibilityLabel :=
                              accessibilityLabel props;
                            image_source := source;
                            image_style := imageStyle props |}
               else None
           | None => None
           end;
         view_text :=
           {| text_style := textStyle props;
              text_children := text props |} |}.

End SwipeableQuickActionButton.

End QuickActionButton.

(** ** The row on the host's animated value *)

(** The handlers of one render of the row over the host's animated
    value.  [start(callback)] of the host runs [callback] when the
    animation ends, whether it ran to completion or was stopped by a later
    [setValue] or [start] on the same value; the callback that [_animateTo]
    passes does not look at [finished]. *)
Module HostRow.

Import Row.
Local Open Scope Q_scope.
Local Open Scope js_scope.

(** The handlers, over the two operations of the animated value they
    use. *)
Section Handlers.

Variable setValue : Q -> Handler unit.
Variable start : Timing -> Handler unit.
Variable IS_RTL : bool.
Variable props : Props.

Definition _animateTo (toValue : Q) (duration : option Q)
    (callback : option Function) : Handler unit :=
  let duration := JS.orDefault SWIPE_DURATION duration in
  let callback := JS.orDefault emptyFunction callback in
  start
    {| timing_toValue := toValue;
       timing_duration := duration;
       timing_end := animateTo_end toValue callback |}.

Definition _animateToOpenPositionWith (speed distMoved : Q) : Handler unit :=
  let speed :=
    if speed >? HORIZONTAL_FULL_SWIPE_SPEED_THRESHOLD
    then speed
    else HORIZONTAL_FULL_SWIPE_SPEED_THRESHOLD in
  let duration :=
    JS.abs ((maxSwipeDistance props - JS.abs distMoved) / speed) in
  let distance :=
    if IS_RTL then - maxSwipeDistance props else maxSwipeDistance props in
  _animateTo (- distance) (Some duration) None.

Definition _animateToClosedPosition (duration : option Q) : Handler unit :=
  let duration := JS.orDefault SWIPE_DURATION duration in
  _animateTo CLOSED_LEFT_POSITION (Some duration) None.

Definition _swipeFullSpeed (gestureState : GestureState) : Handler unit :=
  s <- get ;;
  setValue (_previousLeft s + dx gestureState).

Definition _swipeSlowSpeed (gestureState : GestureState) : Handler unit :=
  s <- get ;;
  setValue (_previousLeft s + dx gestureState / SLOW_SPEED_SWIPE_FACTOR).

Definition _handlePanResponderMove (gestureState : GestureState)
    : Handler unit :=
  excessive <-
    _isSwipingExcessivelyRightFromClosedPosition IS_RTL gestureState ;;
  if excessive then ret tt
  else
    notify onSwipeStart ;;
    right <- _isSwipingRightFromClosed IS_RTL gestureState ;;
    if right then _swipeSlowSpeed gestureState
    else _swipeFullSpeed gestureState.

Definition _animateBounceBack (duration : Q) : Handler unit :=
  let swipeBounceBackDistance :=
    if IS_RTL
    then - RIGHT_SWIPE_BOUNCE_BACK_DISTANCE
    else RIGHT_SWIPE_BOUNCE_BACK_DISTANCE in
  _animateTo (- swipeBounceBackDistance) (Some duration)
    (Some animateToClosedPositionDuringBounce).

Definition _animateToOpenPosition : Handler unit :=
  let distance :=
    if IS_RTL then - maxSwipeDistance props else maxSwipeDistance props in
  _animateTo (- distance) None None.

Definition _handlePanResponderEnd (gestureState : GestureState)
    : Handler unit :=
  let horizontalDistance :=
    if IS_RTL then - dx gestureState else dx gestureState in
  right <- _isSwipingRightFromClosed IS_RTL gestureState ;;
  (if right then
     notify onOpen ;;
     _animateBounceBack RIGHT_SWIPE_BOUNCE_BACK_DURATION
   else if _shouldAnimateRemainder props gestureState then
     if horizontalDistance <? 0 then
       (* Swiped left *)
       notify onOpen ;;
       _animateToOpenPositionWith (vx gestureState) horizontalDistance
     else
       (* Swiped right *)
       notify onClose ;;
       _animateToClosedPosition None
   else
     s <- get ;;
     if _previousLeft s === CLOSED_LEFT_POSITION
     then _animateToClosedPosition None
     else _animateToOpenPosition) ;;
  notify onSwipeEnd.

End Handlers.

(** The animated value forgets its animation ([_animation = null]). *)
Definition detach : Handler unit :=
  fun s => (tt, {| _previousLeft := _previousLeft s;
                   currentLeft := currentLeft s;
                   inFlight := None |}, []).

(** The host stops the animation [t] attached to the value: the value
    forgets it, then its end callback runs, with [finished = false]; a
    [start] made by that callback finds nothing attached. *)
Definition stop (t : Timing) : Handler unit :=
  detach ;; call_end (timing_end t).

(** [currentLeft.setValue(v)] on the host: an attached animation is stopped
    and forgotten, then the value is written. *)
Definition Animated_setValue (v : Q) : Handler unit :=
  s <- get ;;
  match inFlight s with
  | Some t => stop t ;; detach
  | None => ret tt
  end ;;
  setValue v.

(** [Animated.timing(currentLeft, cfg).start(cb)] on the host: an attached
    animation is stopped, then the new one is attached. *)
Definition Animated_start (t' : Timing) : Handler unit :=
  s <- get ;;
  match inFlight s with
  | Some t => stop t
  | None => ret tt
  end ;;
  Animated_timing_start t'.

(** What happens to the row within one render. *)
Inductive Event :=
| onPanResponderMove (gestureState : GestureState)
| onPanResponderRelease (gestureState : GestureState)
| onPanResponderTerminate (gestureState : GestureState)
| animationEnd.

Definition fire (IS_RTL : bool) (props : Props) (e : Event) : Handler unit :=
  match e with
  | onPanResponderMove g =>
      _handlePanResponderMove Animated_setValue IS_RTL g
  | onPanResponderRelease g =>
      _handlePanResponderEnd Animated_start IS_RTL props g
  | onPanResponderTerminate g =>
      _handlePanResponderEnd Animated_start IS_RTL props g
  | animationEnd => Animated_timing_end
  end.

Fixpoint run (IS_RTL : bool) (props : Props) (es : list Event)
    : Handler unit :=
  match es with
  | [] => ret tt
  | e :: es' => fire IS_RTL props e ;; run IS_RTL props es'
  end.

(** The drag of one gesture: its moves, in order. *)
Definition drag (IS_RTL : bool) (props : Props) (gs : list GestureState)
    : Handler unit :=
  run IS_RTL props (map onPanResponderMove gs).

(** The offset [previousLeft] holds once whatever is attached to the
    value has ended. *)
Definition previousLeftAfterEnd (s : State) : Q :=
  match inFlight s with
  | Some t => timing_toValue t
  | None => _previousLeft s
  end.

(** A row with the opening animation of a committed left swipe attached. *)
Definition opening : State :=
  exec (fire false wideProps (onPanResponderRelease swipeLeft)) initial.

End HostRow.

(** * Properties *)

(** ** Comparisons *)

Module JSFacts.

Lemma gt_true (x y : Q) : JS.gt x y = true <-> y < x.
Proof.
  unfold JS.gt. rewrite negb_true_iff, <- not_true_iff_false, Qle_bool_iff.
  split; [apply Qnot_le_lt | apply Qlt_not_le].
Qed.

Lemma gt_false (x y : Q) : JS.gt x y = false <-> x <= y.
Proof.
  unfold JS.gt. now rewrite negb_false_iff, Qle_bool_iff.
Qed.

Lemma lt_true (x y : Q) : JS.lt x y = true <-> x < y.
Proof. apply gt_true. Qed.

Lemma lt_false (x y : Q) : JS.lt x y = false <-> y <= x.
Proof. apply gt_false. Qed.

Lemma strict_eq_true (x y : Q) : JS.strict_eq x y = true <-> x == y.
Proof. apply Qeq_bool_iff. Qed.

Lemma strict_eq_false (x y : Q) : JS.strict_eq x y = false <-> ~ x == y.
Proof.
  unfold JS.strict_eq. rewrite <- not_true_iff_false, Qeq_bool_iff. tauto.
Qed.

End JSFacts.

(** ** The row *)

Module RowFacts.

Import Row.
Local Open Scope Q_scope.

(** Turns the boolean tests of the context and the goal into relations. *)
Ltac relate :=
  repeat match goal with
  | H : JS.gt _ _ = true |- _ => apply JSFacts.gt_true in H
  | H : JS.gt _ _ = false |- _ => apply JSFacts.gt_false in H
  | H : JS.lt _ _ = true |- _ => apply JSFacts.lt_true in H
  | H : JS.lt _ _ = false |- _ => apply JSFacts.lt_false in H
  | H : JS.strict_eq _ _ = true |- _ => apply JSFacts.strict_eq_true in H
  | H : JS.strict_eq _ _ = false |- _ => apply JSFacts.strict_eq_false in H
  end.

(** Unfolds a handler down to the state it returns. *)
Ltac step_handler :=
  cbv beta iota zeta delta
    [value exec log fst snd bind ret get notify app
     set_previousLeft setValue Animated_timing_start JS.orDefault
     _animateTo _animateToOpenPositionWith _animateToClosedPosition
     _animateToClosedPositionDuringBounce _swipeFullSpeed _swipeSlowSpeed
     _isSwipingRightFromClosed _isSwipingExcessivelyRightFromClosedPosition
     _handlePanResponderMove _isValidSwipe
     _handleMoveShouldSetPanResponderCapture _animateBounceBack
     _animateToOpenPosition _handlePanResponderEnd mountBounce isOpenEffect
     call call_end Animated_timing_end fire
     _previousLeft currentLeft inFlight timing_toValue timing_duration
     timing_end].

(** *** Equations of the handlers *)

Lemma exec_bind {A B} (m : Handler A) (k : A -> Handler B) (s : State) :
  exec (bind m k) s = exec (k (value m s)) (exec m s).
Proof.
  unfold exec, value, bind. destruct (m s) as [[a s1] l1]. cbn.
  now destruct (k a s1) as [[b s2] l2].
Qed.

Lemma log_bind {A B} (m : Handler A) (k : A -> Handler B) (s : State) :
  log (bind m k) s = log m s ++ log (k (value m s)) (exec m s).
Proof.
  unfold exec, value, log, bind. destruct (m s) as [[a s1] l1]. cbn.
  now destruct (k a s1) as [[b s2] l2].
Qed.

Lemma isValidSwipe_spec (props : Props) (g : GestureState) (s : State) :
  value (_isValidSwipe props g) s = true <->
  10 < Qabs (dx g) /\
  ~ (preventSwipeRight props = true /\ _previousLeft s == 0 /\ 0 < dx g).
Proof.
  destruct s as [prev cur fl], g as [gdx gdy gvx]; step_handler.
  unfold HORIZONTAL_SWIPE_DISTANCE_THRESHOLD, CLOSED_LEFT_POSITION, JS.abs.
  cbn [dx dy vx].
  destruct (preventSwipeRight props) eqn:Hp;
    destruct (JS.strict_eq prev 0) eqn:Hc;
    destruct (JS.gt gdx 0) eqn:Hx;
    cbn [andb]; rewrite ?JSFacts.gt_true; relate;
    split; intros; intuition (try discriminate; try lra).
Qed.

Lemma capture_unfold (props : Props) (g : GestureState) (s : State) :
  value (_handleMoveShouldSetPanResponderCapture props g) s =
  JS.lt (dy g) 10 && value (_isValidSwipe props g) s.
Proof.
  unfold _handleMoveShouldSetPanResponderCapture.
  now destruct (JS.lt (dy g) 10).
Qed.

Lemma swipingRight_true (IS_RTL : bool) (g : GestureState) (s : State) :
  value (_isSwipingRightFromClosed IS_RTL g) s = true <->
  _previousLeft s == 0 /\ 0 < directionCorrected IS_RTL (dx g).
Proof.
  step_handler. unfold directionCorrected, CLOSED_LEFT_POSITION.
  now rewrite andb_true_iff, JSFacts.strict_eq_true, JSFacts.gt_true.
Qed.

Lemma swipingRight_false (IS_RTL : bool) (g : GestureState) (s : State) :
  value (_isSwipingRightFromClosed IS_RTL g) s = false <->
  ~ (_previousLeft s == 0 /\ 0 < directionCorrected IS_RTL (dx g)).
Proof.
  now rewrite <- swipingRight_true, not_true_iff_false.
Qed.

Lemma shouldAnimateRemainder_true (props : Props) (g : GestureState) :
  _shouldAnimateRemainder props g = true <->
  swipeThreshold props < Qabs (dx g) \/ 3 # 10 < vx g.
Proof.
  unfold _shouldAnimateRemainder, JS.abs, HORIZONTAL_FULL_SWIPE_SPEED_THRESHOLD.
  now rewrite orb_true_iff, !JSFacts.gt_true.
Qed.


(** The release handler, branch by branch. *)
Lemma handlePanResponderEnd_eq (IS_RTL : bool) (props : Props)
    (g : GestureState) (s : State) :
  _handlePanResponderEnd IS_RTL props g s =
  if value (_isSwipingRightFromClosed IS_RTL g) s then
    (tt,
     started
       (animation
          (- directionCorrected IS_RTL RIGHT_SWIPE_BOUNCE_BACK_DISTANCE)
          RIGHT_SWIPE_BOUNCE_BACK_DURATION
          animateToClosedPositionDuringBounce) s,
     [onOpen; onSwipeEnd])
  else if _shouldAnimateRemainder props g then
    if JS.lt (directionCorrected IS_RTL (dx g)) 0 then
      (tt,
       started
         (animation
            (openOffset IS_RTL props)
            (JS.abs
               ((maxSwipeDistance props
                 - JS.abs (directionCorrected IS_RTL (dx g)))
                / (if JS.gt (vx g) HORIZONTAL_FULL_SWIPE_SPEED_THRESHOLD
                   then vx g
                   else HORIZONTAL_FULL_SWIPE_SPEED_THRESHOLD)))
            emptyFunction) s,
       [onOpen; onSwipeEnd])
    else
      (tt,
       started (animation CLOSED_LEFT_POSITION SWIPE_DURATION emptyFunction) s,
       [onClose; onSwipeEnd])
  else if JS.strict_eq (_previousLeft s) CLOSED_LEFT_POSITION then
    (tt,
     started (animation CLOSED_LEFT_POSITION SWIPE_DURATION emptyFunction) s,
     [onSwipeEnd])
  else
    (tt,
     started
       (animation (openOffset IS_RTL props) SWIPE_DURATION emptyFunction) s,
     [onSwipeEnd]).
Proof.
  step_handler.
  unfold started, animation, openOffset, directionCorrected.
  destruct IS_RTL;
    repeat match goal with
    | |- context [if ?b then _ else _] => destruct b
    end; reflexivity.
Qed.

(** The move handler, branch by branch. *)
Lemma handlePanResponderMove_eq (IS_RTL : bool) (g : GestureState)
    (s : State) :
  _handlePanResponderMove IS_RTL g s =
  if value (_isSwipingExcessivelyRightFromClosedPosition IS_RTL g) s then
    (tt, s, [])
  else if value (_isSwipingRightFromClosed IS_RTL g) s then
    (tt,
     {| _previousLeft := _previousLeft s;
        currentLeft := _previousLeft s + dx g / SLOW_SPEED_SWIPE_FACTOR;
        inFlight := inFlight s |},
     [onSwipeStart])
  else
    (tt,
     {| _previousLeft := _previousLeft s;
        currentLeft := _previousLeft s + dx g;
        inFlight := inFlight s |},
     [onSwipeStart]).
Proof.
  step_handler.
  repeat match goal with
  | |- context [if ?b then _ else _] => destruct b
  end; cbn [andb]; reflexivity.
Qed.

Lemma excessive_true (IS_RTL : bool) (g : GestureState) (s : State) :
  value (_isSwipingExcessivelyRightFromClosedPosition IS_RTL g) s = true <->
  _previousLeft s == 0 /\ 120 < directionCorrected IS_RTL (dx g).
Proof.
  step_handler.
  unfold directionCorrected, CLOSED_LEFT_POSITION, RIGHT_SWIPE_THRESHOLD,
    SLOW_SPEED_SWIPE_FACTOR.
  rewrite !andb_true_iff, JSFacts.strict_eq_true, !JSFacts.gt_true.
  assert (30 * 4 == 120) as -> by reflexivity.
  intuition lra.
Qed.

Lemma settle_plain (v d : Q) (s : State) (n : nat) :
  settle (S n) (started (animation v d emptyFunction) s) =
  (tt, {| _previousLeft := v; currentLeft := v; inFlight := None |}, []).
Proof. destruct n; reflexivity. Qed.


(** *** Gesture capture *)

(** C2.  On a candidate move the row claims the gesture exactly when the
    vertical displacement is below 10, the absolute horizontal displacement
    exceeds 10, and it is not the case that [preventSwipeRight] is set, the
    row is closed and the displacement is rightward. *)
Theorem capture_iff (props : Props) (g : GestureState) (s : State) :
  value (_handleMoveShouldSetPanResponderCapture props g) s = true <->
  dy g < 10 /\
  10 < Qabs (dx g) /\
  ~ (preventSwipeRight props = true /\ _previousLeft s == 0 /\ 0 < dx g).
Proof.
  rewrite capture_unfold, andb_true_iff, JSFacts.lt_true, isValidSwipe_spec.
  reflexivity.
Qed.

(** C10.  The capture check looks at the signed vertical displacement: with
    an absolute horizontal displacement above 10 and no [preventSwipeRight]
    exclusion, an upward displacement of 10 or more, however large, is still
    claimed by the row, whereas the same displacement downward is not. *)
Theorem capture_signed_dy (props : Props) (g : GestureState) (s : State) :
  10 < Qabs (dx g) ->
  dy g <= -10 ->
  ~ (preventSwipeRight props = true /\ _previousLeft s == 0 /\ 0 < dx g) ->
  value (_handleMoveShouldSetPanResponderCapture props g) s = true /\
  value (_handleMoveShouldSetPanResponderCapture props
           {| dx := dx g; dy := - dy g; vx := vx g |}) s = false.
Proof.
  intros Hdx Hdy Hex. rewrite !capture_unfold. cbn [dx dy vx]. split.
  - apply andb_true_iff. split.
    + apply JSFacts.lt_true. lra.
    + now apply isValidSwipe_spec.
  - apply andb_false_iff. left. apply JSFacts.lt_false. lra.
Qed.

Lemma capture_signed_dy_witness :
  value (_handleMoveShouldSetPanResponderCapture defaultProps swipeUpLeft)
    initial = true /\
  value (_handleMoveShouldSetPanResponderCapture defaultProps
           {| dx := dx swipeUpLeft; dy := - dy swipeUpLeft;
              vx := vx swipeUpLeft |}) initial = false.
Proof.
  apply (capture_signed_dy defaultProps swipeUpLeft initial).
  - reflexivity.
  - vm_compute. discriminate.
  - intros [H _]. discriminate H.
Defined.

(** *** Release and termination *)

Lemma fire_end (IS_RTL : bool) (props : Props) (g : GestureState)
    (e : Event) :
  e = onPanResponderRelease g \/ e = onPanResponderTerminate g ->
  fire IS_RTL props e = _handlePanResponderEnd IS_RTL props g.
Proof. now intros [-> | ->]. Qed.

(** C3.  A released or terminated gesture that was not a rightward swipe
    from closed is treated as committed, that is, [onOpen] or [onClose] is
    notified and the row animates to the endpoint of the swipe's direction
    instead of the endpoint it came from, exactly when [|dx|] exceeds
    [swipeThreshold] or the release velocity exceeds 0.3. *)
Theorem committed_iff (IS_RTL : bool) (props : Props) (g : GestureState)
    (s : State) (e : Event) :
  e = onPanResponderRelease g \/ e = onPanResponderTerminate g ->
  value (_isSwipingRightFromClosed IS_RTL g) s = false ->
  let committed := swipeThreshold props < Qabs (dx g) \/ 3 # 10 < vx g in
  let notified := log (fire IS_RTL props e) s in
  (_shouldAnimateRemainder props g = true <-> committed) /\
  (In onOpen notified \/ In onClose notified <-> committed) /\
  (committed ->
   exists duration,
     exec (fire IS_RTL props e) s =
     started
       (animation
          (if JS.lt (directionCorrected IS_RTL (dx g)) 0
           then openOffset IS_RTL props
           else CLOSED_LEFT_POSITION)
          duration emptyFunction) s) /\
  (~ committed ->
   exec (fire IS_RTL props e) s =
   started
     (animation
        (if JS.strict_eq (_previousLeft s) CLOSED_LEFT_POSITION
         then CLOSED_LEFT_POSITION
         else openOffset IS_RTL props)
        SWIPE_DURATION emptyFunction) s).
Proof.
  intros He Hright committed notified. subst committed notified.
  rewrite (fire_end IS_RTL props He).
  unfold log, exec. rewrite handlePanResponderEnd_eq, Hright.
  rewrite <- shouldAnimateRemainder_true.
  destruct (_shouldAnimateRemainder props g).
  - destruct (JS.lt (directionCorrected IS_RTL (dx g)) 0); cbn;
      (repeat split; try tauto; eauto).
  - destruct (JS.strict_eq (_previousLeft s) CLOSED_LEFT_POSITION); cbn;
      (repeat split; try tauto; try discriminate;
       intuition (discriminate || eauto)).
Qed.

Lemma committed_iff_witness :
  let e := onPanResponderRelease swipeLeft in
  let notified := log (fire false wideProps e) initial in
  (In onOpen notified \/ In onClose notified <->
   swipeThreshold wideProps < Qabs (dx swipeLeft) \/ 3 # 10 < vx swipeLeft).
Proof.
  intros e notified.
  apply (committed_iff false wideProps (g := swipeLeft) initial (e := e)).
  - left. reflexivity.
  - reflexivity.
Defined.

(** C4.  On a committed release or termination whose direction-corrected
    horizontal movement is negative, [onOpen] is notified exactly once and
    the row animates to the fully open offset, [-maxSwipeDistance] (its
    sign flipped under right-to-left), over
    [|maxSwipeDistance - |distMoved|| / speed], where [speed] is the release
    velocity raised to at least 0.3; the row settles at that offset. *)
Theorem committed_left_swipe_opens (IS_RTL : bool) (props : Props)
    (g : GestureState) (s : State) (e : Event) :
  e = onPanResponderRelease g \/ e = onPanResponderTerminate g ->
  _shouldAnimateRemainder props g = true ->
  directionCorrected IS_RTL (dx g) < 0 ->
  let distMoved := directionCorrected IS_RTL (dx g) in
  let speed := Qmax (vx g) (3 # 10) in
  let fullyOpen :=
    if IS_RTL then maxSwipeDistance props else - maxSwipeDistance props in
  let s1 := exec (fire IS_RTL props e) s in
  let s2 := exec (fire IS_RTL props animationEnd) s1 in
  log (fire IS_RTL props e) s = [onOpen; onSwipeEnd] /\
  List.length
    (filter (Notification_eqb onOpen) (log (fire IS_RTL props e) s)) = 1%nat /\
  (exists t,
     inFlight s1 = Some t /\
     timing_toValue t == fullyOpen /\
     timing_duration t == Qabs (maxSwipeDistance props - Qabs distMoved) / speed /\
     3 # 10 <= speed) /\
  _previousLeft s1 = _previousLeft s /\
  _previousLeft s2 == fullyOpen /\
  currentLeft s2 == fullyOpen /\
  inFlight s2 = None.
Proof.
  intros He Hcommit Hleft distMoved speed fullyOpen s1 s2.
  assert (Hright : value (_isSwipingRightFromClosed IS_RTL g) s = false).
  { apply swipingRight_false. intros [_ H]. lra. }
  assert (Hlt : JS.lt (directionCorrected IS_RTL (dx g)) 0 = true)
    by now apply JSFacts.lt_true.
  assert (Hopen : openOffset IS_RTL props == fullyOpen).
  { unfold openOffset, directionCorrected, fullyOpen.
    destruct IS_RTL; [apply Qopp_involutive | reflexivity]. }
  pose proof (handlePanResponderEnd_eq IS_RTL props g s) as Heq.
  rewrite Hright, Hcommit, Hlt in Heq.
  subst s2 s1. rewrite (fire_end IS_RTL props He).
  unfold log, exec. rewrite Heq.
  cbn [fst snd filter Notification_eqb List.length].
  repeat split; trivial.
  eexists; split; [reflexivity |].
  cbn [timing_toValue timing_duration animation].
  split; [exact Hopen |].
  unfold JS.abs, HORIZONTAL_FULL_SWIPE_SPEED_THRESHOLD. fold distMoved.
  set (clamped := if JS.gt (vx g) (3 # 10) then vx g else 3 # 10).
  assert (Hspeed : clamped == speed /\ 3 # 10 <= speed).
  { unfold speed, clamped. destruct (JS.gt (vx g) (3 # 10)) eqn:Hv; relate.
    - rewrite Q.max_l by lra. split; [reflexivity | lra].
    - rewrite Q.max_r by lra. split; [reflexivity | lra]. }
  destruct Hspeed as [Hclamped Hpos]. split; trivial.
  rewrite Hclamped. unfold Qdiv. rewrite Qabs_Qmult, Qabs_Qinv.
  rewrite (Qabs_pos speed) by lra. reflexivity.
Qed.

Lemma committed_left_swipe_opens_witness :
  _shouldAnimateRemainder wideProps swipeLeft = true /\
  directionCorrected false (dx swipeLeft) < 0 /\
  log (fire false wideProps (onPanResponderRelease swipeLeft)) initial =
  [onOpen; onSwipeEnd].
Proof.
  assert (H1 : _shouldAnimateRemainder wideProps swipeLeft = true)
    by reflexivity.
  assert (H2 : directionCorrected false (dx swipeLeft) < 0) by reflexivity.
  split; [exact H1 |]. split; [exact H2 |].
  apply (committed_left_swipe_opens false wideProps (g := swipeLeft) initial
           (e := onPanResponderRelease swipeLeft) (or_introl eq_refl) H1 H2).
Defined.



(** *** Tracking while dragging *)

Lemma move_keeps_previousLeft (IS_RTL : bool) (g : GestureState)
    (s : State) :
  _previousLeft (exec (_handlePanResponderMove IS_RTL g) s) = _previousLeft s.
Proof.
  unfold exec. rewrite handlePanResponderMove_eq.
  repeat match goal with
  | |- context [if ?b then _ else _] => destruct b
  end; reflexivity.
Qed.

Lemma excessive_depends_on_previousLeft (IS_RTL : bool) (g : GestureState)
    (s s' : State) :
  _previousLeft s' = _previousLeft s ->
  value (_isSwipingExcessivelyRightFromClosedPosition IS_RTL g) s' =
  value (_isSwipingExcessivelyRightFromClosedPosition IS_RTL g) s.
Proof.
  intros H. step_handler. cbv delta [_previousLeft] in H. now rewrite H.
Qed.

(** The moves of one drag, as events. *)
Lemma moves_log (IS_RTL : bool) (props : Props) (gs : list GestureState)
    (s : State) :
  log (run IS_RTL (map (fun g => (props, onPanResponderMove g)) gs)) s =
  map (fun _ => onSwipeStart)
    (filter
       (fun g =>
          negb (value (_isSwipingExcessivelyRightFromClosedPosition IS_RTL g) s))
       gs).
Proof.
  revert s. induction gs as [| g gs IH]; intros s; [reflexivity |].
  cbn [map run filter]. rewrite log_bind. cbn [fire].
  rewrite IH.
  rewrite (filter_ext
             (fun g0 =>
                negb (value
                  (_isSwipingExcessivelyRightFromClosedPosition IS_RTL g0)
                  (exec (_handlePanResponderMove IS_RTL g) s)))
             (fun g0 =>
                negb (value
                  (_isSwipingExcessivelyRightFromClosedPosition IS_RTL g0) s))).
  2:{ intros g0. f_equal. apply excessive_depends_on_previousLeft.
      apply move_keeps_previousLeft. }
  unfold log at 1. rewrite handlePanResponderMove_eq.
  destruct (value (_isSwipingExcessivelyRightFromClosedPosition IS_RTL g) s);
    [reflexivity |].
  destruct (value (_isSwipingRightFromClosed IS_RTL g) s); reflexivity.
Qed.

(** C6.  For every move while dragging: from closed with a positive
    direction-corrected [dx], the live offset becomes
    [previousLeft + dx / 4], and once that [dx] exceeds 120 the move is
    suppressed entirely; otherwise the live offset becomes
    [previousLeft + dx]; and every move that is not suppressed notifies
    [onSwipeStart], the later moves of a drag as well as the first. *)
Theorem move_tracking (IS_RTL : bool) (props : Props) (g : GestureState)
    (s : State) :
  let cdx := directionCorrected IS_RTL (dx g) in
  let move := fire IS_RTL props (onPanResponderMove g) in
  (_previousLeft s == 0 -> 0 < cdx -> cdx <= 120 ->
   currentLeft (exec move s) = _previousLeft s + dx g / 4 /\
   _previousLeft (exec move s) = _previousLeft s /\
   log move s = [onSwipeStart]) /\
  (_previousLeft s == 0 -> 120 < cdx ->
   move s = (tt, s, [])) /\
  (~ (_previousLeft s == 0 /\ 0 < cdx) ->
   currentLeft (exec move s) = _previousLeft s + dx g /\
   _previousLeft (exec move s) = _previousLeft s /\
   log move s = [onSwipeStart]) /\
  (forall gs : list GestureState,
     log (run IS_RTL (map (fun g => (props, onPanResponderMove g)) gs)) s =
     map (fun _ => onSwipeStart)
       (filter
          (fun g =>
             negb (value
               (_isSwipingExcessivelyRightFromClosedPosition IS_RTL g) s))
          gs)).
Proof.
  intros cdx move. subst move. cbn [fire].
  pose proof (handlePanResponderMove_eq IS_RTL g s) as Heq.
  pose proof (excessive_true IS_RTL g s) as Hex.
  pose proof (swipingRight_true IS_RTL g s) as Hr.
  fold cdx in Hex, Hr.
  destruct (value (_isSwipingExcessivelyRightFromClosedPosition IS_RTL g) s);
    destruct (value (_isSwipingRightFromClosed IS_RTL g) s);
    unfold exec, log; rewrite Heq; cbn [fst snd currentLeft _previousLeft];
    (split; [| split; [| split]]);
    try (intros gs; apply moves_log);
    intros; repeat split; trivial; exfalso;
    try (assert (false = true) by (apply Hex + apply Hr; split; trivial; lra);
         discriminate);
    try (assert (_previousLeft s == 0 /\ 120 < cdx) as [_ ?]
           by (now apply Hex); lra);
    try (assert (_previousLeft s == 0 /\ 0 < cdx) by (now apply Hr); tauto).
Qed.

Lemma move_tracking_witness :
  fire false wideProps (onPanResponderMove nudgeRight) initial =
  (tt, {| _previousLeft := 0; currentLeft := 0 + 20 / 4; inFlight := None |},
   [onSwipeStart]) /\
  fire false wideProps (onPanResponderMove dragRight) initial =
  (tt, initial, []) /\
  fire false wideProps (onPanResponderMove nudgeLeft) initial =
  (tt, {| _previousLeft := 0; currentLeft := 0 + -20; inFlight := None |},
   [onSwipeStart]).
Proof.
  split; [reflexivity |]. split; [| reflexivity].
  apply (move_tracking false wideProps dragRight initial); reflexivity.
Defined.

(** *** Snapping back *)

Lemma releaseAndSettle_eq (IS_RTL : bool) (props : Props)
    (g : GestureState) (s : State) :
  exec (releaseAndSettle IS_RTL props g) s =
  exec (settle 2) (exec (_handlePanResponderEnd IS_RTL props g) s).
Proof. unfold releaseAndSettle. now rewrite exec_bind. Qed.





(** *** Histories of a row *)

Lemma exec_run_app (IS_RTL : bool) (es es' : list (Props * Event))
    (s : State) :
  exec (run IS_RTL (es ++ es')) s =
  exec (run IS_RTL es') (exec (run IS_RTL es) s).
Proof.
  revert s. induction es as [| [props e] es IH]; intros s; [reflexivity |].
  cbn [app run]. now rewrite !exec_bind, IH.
Qed.

Lemma fire_wellFormed (IS_RTL : bool) (props : Props) (e : Event)
    (s : State) :
  wellFormed s -> wellFormed (exec (fire IS_RTL props e) s).
Proof.
  intros Hwf t.
  destruct e as [g | g | g | | |]; cbn [fire].
  - unfold exec. rewrite handlePanResponderMove_eq.
    repeat match goal with
    | |- context [if ?b then _ else _] => destruct b
    end; cbn [fst snd inFlight]; apply Hwf.
  - unfold exec. rewrite handlePanResponderEnd_eq.
    repeat match goal with
    | |- context [if ?b then _ else _] => destruct b
    end; cbn [fst snd inFlight started];
      intros [= <-]; eexists; reflexivity.
  - unfold exec. rewrite handlePanResponderEnd_eq.
    repeat match goal with
    | |- context [if ?b then _ else _] => destruct b
    end; cbn [fst snd inFlight started];
      intros [= <-]; eexists; reflexivity.
  - destruct s as [prev cur [[v d [v' [|]]] |]];
      cbn; try discriminate; intros [= <-]; eexists; reflexivity.
  - unfold mountBounce. destruct (shouldBounceOnMount props);
      [cbn; intros [= <-]; eexists; reflexivity | apply Hwf].
  - unfold isOpenEffect. destruct (isOpen props);
      cbn; intros [= <-]; eexists; reflexivity.
Qed.

Lemma reachable_wellFormed (IS_RTL : bool) (s : State) :
  reachable IS_RTL s -> wellFormed s.
Proof.
  intros [es ->]. induction es as [| [props e] es IH] using rev_ind.
  - intros t [=].
  - rewrite exec_run_app. cbn [run]. rewrite exec_bind.
    now apply fire_wellFormed.
Qed.


(** *** Further properties of the release handler *)

Lemma isRestOffset_closed (IS_RTL : bool) (props : Props) :
  isRestOffset IS_RTL props CLOSED_LEFT_POSITION.
Proof. left. reflexivity. Qed.

Lemma isRestOffset_open (IS_RTL : bool) (props : Props) :
  isRestOffset IS_RTL props (openOffset IS_RTL props).
Proof. right. left. reflexivity. Qed.

Lemma isRestOffset_overshoot (IS_RTL : bool) (props : Props) :
  isRestOffset IS_RTL props
    (- directionCorrected IS_RTL RIGHT_SWIPE_BOUNCE_BACK_DISTANCE).
Proof. right. right. reflexivity. Qed.

Lemma release_ends_swipe_started (IS_RTL : bool) (props : Props)
    (g : GestureState) (s : State) :
  exists t,
    exec (_handlePanResponderEnd IS_RTL props g) s = started t s /\
    (exists callback,
       timing_end t = animateTo_end (timing_toValue t) callback).
Proof.
  unfold exec. rewrite handlePanResponderEnd_eq.
  repeat match goal with
  | |- context [if ?b then _ else _] => destruct b
  end; eexists; (split; [reflexivity | eexists; reflexivity]).
Qed.

Lemma release_target (IS_RTL : bool) (props : Props) (g : GestureState)
    (s : State) (t : Timing) :
  exec (_handlePanResponderEnd IS_RTL props g) s = started t s ->
  isRestOffset IS_RTL props (timing_toValue t).
Proof.
  unfold exec. rewrite handlePanResponderEnd_eq.
  repeat match goal with
  | |- context [if ?b then _ else _] => destruct b
  end; cbn [fst snd started]; intros [= <-]; cbn [timing_toValue animation];
    first [ apply isRestOffset_overshoot
          | apply isRestOffset_open
          | apply isRestOffset_closed ].
Qed.

Lemma release_log (IS_RTL : bool) (props : Props) (g : GestureState)
    (s : State) :
  log (_handlePanResponderEnd IS_RTL props g) s = [onSwipeEnd] \/
  log (_handlePanResponderEnd IS_RTL props g) s = [onOpen; onSwipeEnd] \/
  log (_handlePanResponderEnd IS_RTL props g) s = [onClose; onSwipeEnd].
Proof.
  unfold log. rewrite handlePanResponderEnd_eq.
  repeat match goal with
  | |- context [if ?b then _ else _] => destruct b
  end; cbn [snd]; auto.
Qed.

(** X2.  A committed release or termination that is not a rightward swipe
    from closed and whose direction-corrected movement is not negative
    notifies [onClose], then [onSwipeEnd], and animates to the closed
    offset over 300ms, where the row comes to rest. *)
Theorem committed_right_swipe_closes (IS_RTL : bool) (props : Props)
    (g : GestureState) (s : State) :
  _shouldAnimateRemainder props g = true ->
  value (_isSwipingRightFromClosed IS_RTL g) s = false ->
  0 <= directionCorrected IS_RTL (dx g) ->
  _handlePanResponderEnd IS_RTL props g s =
  (tt, started (animation 0 300 emptyFunction) s, [onClose; onSwipeEnd]) /\
  exec (releaseAndSettle IS_RTL props g) s =
  {| _previousLeft := 0; currentLeft := 0; inFlight := None |}.
Proof.
  intros Hcommit Hright Hdx.
  assert (Hlt : JS.lt (directionCorrected IS_RTL (dx g)) 0 = false)
    by now apply JSFacts.lt_false.
  assert (Heq :
    _handlePanResponderEnd IS_RTL props g s =
    (tt, started (animation 0 300 emptyFunction) s, [onClose; onSwipeEnd])).
  { now rewrite handlePanResponderEnd_eq, Hright, Hcommit, Hlt. }
  split; [exact Heq |].
  rewrite releaseAndSettle_eq. unfold exec. rewrite Heq. cbn [fst snd].
  now rewrite settle_plain.
Qed.

Lemma committed_right_swipe_closes_witness :
  exec (releaseAndSettle false wideProps flingRight) openState =
  {| _previousLeft := 0; currentLeft := 0; inFlight := None |}.
Proof.
  apply (committed_right_swipe_closes false wideProps flingRight openState).
  - reflexivity.
  - reflexivity.
  - vm_compute. discriminate.
Defined.

(** X3.  Whatever the release velocity, zero or negative included, the
    animation that finishes an opening swipe has a duration between 0 and
    [|maxSwipeDistance - |distMoved|| / 0.3]; at a velocity of at most 0.3
    it is that bound, and it is 0 when the row was dragged exactly
    [maxSwipeDistance]. *)
Theorem finishing_duration_bounded (IS_RTL : bool) (props : Props)
    (speed distMoved : Q) (s : State) :
  let remaining := Qabs (maxSwipeDistance props - Qabs distMoved) in
  exists t,
    exec (_animateToOpenPositionWith IS_RTL props speed distMoved) s =
    started t s /\
    timing_toValue t = openOffset IS_RTL props /\
    0 <= timing_duration t /\
    timing_duration t <= remaining / (3 # 10) /\
    (speed <= 3 # 10 -> timing_duration t == remaining / (3 # 10)) /\
    (Qabs distMoved == maxSwipeDistance props -> timing_duration t == 0).
Proof.
  intros remaining.
  set (clamped := if JS.gt speed (3 # 10) then speed else 3 # 10).
  exists (animation (openOffset IS_RTL props)
            (Qabs ((maxSwipeDistance props - Qabs distMoved) / clamped))
            emptyFunction).
  split; [destruct IS_RTL; reflexivity |]. split; [reflexivity |].
  cbn [timing_duration animation].
  assert (Hclamped : 3 # 10 <= clamped).
  { unfold clamped. destruct (JS.gt speed (3 # 10)) eqn:Hv; relate; lra. }
  assert (Hdur :
    Qabs ((maxSwipeDistance props - Qabs distMoved) / clamped) ==
    remaining / clamped).
  { unfold Qdiv. rewrite Qabs_Qmult, Qabs_Qinv.
    rewrite (Qabs_pos clamped) by lra. reflexivity. }
  pose proof (Qabs_nonneg (maxSwipeDistance props - Qabs distMoved)) as Hpos.
  fold remaining in Hpos.
  split; [apply Qabs_nonneg |].
  split.
  { rewrite Hdur. apply Qle_shift_div_r; [lra |].
    unfold Qdiv. assert (/ (3 # 10) == 10 # 3) as -> by reflexivity. nra. }
  split.
  { intros Hslow. rewrite Hdur.
    assert (Hc : clamped == 3 # 10).
    { unfold clamped. destruct (JS.gt speed (3 # 10)) eqn:Hv; relate;
        [lra | reflexivity]. }
    now rewrite Hc. }
  intros Hfull. rewrite Hdur.
  assert (Hr : remaining == 0).
  { unfold remaining. rewrite Hfull.
    setoid_replace (maxSwipeDistance props - maxSwipeDistance props)
      with 0 by ring.
    reflexivity. }
  rewrite Hr. unfold Qdiv. ring.
Qed.

(** *** Drags *)

Lemma div4 (x : Q) : x / 4 == x * (1 # 4).
Proof. reflexivity. Qed.

Lemma drag_cons (IS_RTL : bool) (props : Props) (g : GestureState)
    (gs : list GestureState) (s : State) :
  exec (drag IS_RTL props (g :: gs)) s =
  exec (drag IS_RTL props gs) (exec (_handlePanResponderMove IS_RTL g) s).
Proof.
  unfold drag, runWith. cbn [map run]. now rewrite exec_bind.
Qed.

Lemma move_keeps_inFlight (IS_RTL : bool) (g : GestureState) (s : State) :
  inFlight (exec (_handlePanResponderMove IS_RTL g) s) = inFlight s.
Proof.
  unfold exec. rewrite handlePanResponderMove_eq.
  repeat match goal with
  | |- context [if ?b then _ else _] => destruct b
  end; reflexivity.
Qed.

Lemma drag_keeps (IS_RTL : bool) (props : Props) (gs : list GestureState)
    (s : State) :
  _previousLeft (exec (drag IS_RTL props gs) s) = _previousLeft s /\
  inFlight (exec (drag IS_RTL props gs) s) = inFlight s.
Proof.
  revert s. induction gs as [| g gs IH]; intros s; [split; reflexivity |].
  rewrite drag_cons. destruct (IH (exec (_handlePanResponderMove IS_RTL g) s))
    as [-> ->].
  split; [apply move_keeps_previousLeft | apply move_keeps_inFlight].
Qed.

(** The live value after one move from a closed row. *)
Lemma move_from_closed_capped (IS_RTL : bool) (g : GestureState)
    (s : State) :
  _previousLeft s == 0 ->
  directionCorrected IS_RTL (currentLeft s) <= 30 ->
  directionCorrected IS_RTL
    (currentLeft (exec (_handlePanResponderMove IS_RTL g) s)) <= 30.
Proof.
  intros Hclosed Hcur.
  pose proof (excessive_true IS_RTL g s) as Hex.
  pose proof (swipingRight_true IS_RTL g s) as Hr.
  unfold exec. rewrite handlePanResponderMove_eq.
  destruct (value (_isSwipingExcessivelyRightFromClosedPosition IS_RTL g) s);
    [exact Hcur |].
  assert (Hcap : directionCorrected IS_RTL (dx g) <= 120).
  { apply Qnot_lt_le. intros Hgt.
    assert (false = true) by (apply Hex; now split). discriminate. }
  destruct (value (_isSwipingRightFromClosed IS_RTL g) s);
    cbn [fst snd currentLeft]; unfold SLOW_SPEED_SWIPE_FACTOR.
  - unfold directionCorrected in *. destruct IS_RTL; rewrite div4; lra.
  - assert (Hleft : directionCorrected IS_RTL (dx g) <= 0).
    { apply Qnot_lt_le. intros Hgt.
      assert (false = true) by (apply Hr; now split). discriminate. }
    unfold directionCorrected in *. destruct IS_RTL; lra.
Qed.

Lemma release_depends_on_previousLeft (IS_RTL : bool) (props : Props)
    (g : GestureState) (s s' : State) :
  _previousLeft s' = _previousLeft s ->
  log (_handlePanResponderEnd IS_RTL props g) s' =
  log (_handlePanResponderEnd IS_RTL props g) s /\
  inFlight (exec (_handlePanResponderEnd IS_RTL props g) s') =
  inFlight (exec (_handlePanResponderEnd IS_RTL props g) s).
Proof.
  intros Hprev. unfold log, exec. rewrite !handlePanResponderEnd_eq.
  assert (Hr : value (_isSwipingRightFromClosed IS_RTL g) s' =
               value (_isSwipingRightFromClosed IS_RTL g) s).
  { step_handler. cbv delta [_previousLeft] in Hprev. now rewrite Hprev. }
  rewrite Hr, Hprev.
  repeat match goal with
  | |- context [if ?b then _ else _] => destruct b
  end; split; reflexivity.
Qed.

(** *** Effects of the row *)

(** X6.  With [shouldBounceOnMount], the mount timer plays the bounce
    without a word to the parent: the overshoot of 30 units
    (direction-corrected) over 400ms, then, started by its completion, the
    return to 0 over 300ms, after which the row rests closed.  Without the
    flag the timer does nothing. *)
Theorem mount_bounce (IS_RTL : bool) (props : Props) (s : State) :
  let overshoot := - directionCorrected IS_RTL 30 in
  let timer := fire IS_RTL props mountBounceTimer in
  let s1 := exec timer s in
  let s2 := exec (fire IS_RTL props animationEnd) s1 in
  let s3 := exec (fire IS_RTL props animationEnd) s2 in
  if shouldBounceOnMount props then
    timer s =
    (tt,
     started (animation overshoot 400 animateToClosedPositionDuringBounce) s,
     []) /\
    fire IS_RTL props animationEnd s1 =
    (tt,
     started (animation 0 300 emptyFunction)
       {| _previousLeft := overshoot; currentLeft := overshoot;
          inFlight := None |},
     []) /\
    fire IS_RTL props animationEnd s2 =
    (tt, {| _previousLeft := 0; currentLeft := 0; inFlight := None |}, [])
  else timer s = (tt, s, []).
Proof.
  cbn zeta. cbn [fire]. unfold mountBounce.
  destruct (shouldBounceOnMount props); [| reflexivity].
  destruct IS_RTL; repeat split; reflexivity.
Qed.

(** X7.  The effect on [isOpen] animates over 300ms to the closed offset
    when [isOpen] is false and to the open offset otherwise, telling the
    parent nothing; once the animation has completed, [previousLeft] and
    the live value are at that offset, and running the effect again comes
    to rest in the same state. *)
Theorem isOpen_reconciles (IS_RTL : bool) (props : Props) (s : State) :
  let target := if isOpen props then openOffset IS_RTL props else 0 in
  let reconcile :=
    fire IS_RTL props isOpenChanged ;; fire IS_RTL props animationEnd in
  let rest :=
    {| _previousLeft := target; currentLeft := target; inFlight := None |} in
  fire IS_RTL props isOpenChanged s =
  (tt, started (animation target 300 emptyFunction) s, []) /\
  reconcile s = (tt, rest, []) /\
  reconcile rest = (tt, rest, []).
Proof.
  cbn zeta. cbn [fire]. unfold isOpenEffect.
  destruct (isOpen props); destruct IS_RTL; repeat split; reflexivity.
Qed.

(** *** The offsets a row rests at *)

(** What a history keeps true of [previousLeft] and the animation in
    flight. *)
Lemma fire_restOffsets (IS_RTL : bool) (props : Props) (e : Event)
    (s : State) :
  isRestOffset IS_RTL props (_previousLeft s) ->
  wellFormed s ->
  (forall t, inFlight s = Some t ->
             isRestOffset IS_RTL props (timing_toValue t)) ->
  let s' := exec (fire IS_RTL props e) s in
  isRestOffset IS_RTL props (_previousLeft s') /\
  (forall t, inFlight s' = Some t ->
             isRestOffset IS_RTL props (timing_toValue t)).
Proof.
  intros Hprev Hwf Hfl s'. subst s'.
  destruct e as [g | g | g | | |]; cbn [fire].
  - rewrite move_keeps_previousLeft, move_keeps_inFlight. now split.
  - destruct (release_ends_swipe_started IS_RTL props g s) as (t & Ht & _).
    pose proof (release_target IS_RTL props g Ht) as Hrest. rewrite Ht.
    cbn [started _previousLeft inFlight].
    split; [exact Hprev | now intros t' [= <-]].
  - destruct (release_ends_swipe_started IS_RTL props g s) as (t & Ht & _).
    pose proof (release_target IS_RTL props g Ht) as Hrest. rewrite Ht.
    cbn [started _previousLeft inFlight].
    split; [exact Hprev | now intros t' [= <-]].
  - destruct (inFlight s) as [t |] eqn:Ht.
    + destruct (Hwf t Ht) as [callback Hcb]. specialize (Hfl t eq_refl).
      destruct s as [prev cur fl]. cbn [inFlight] in Ht. subst fl.
      destruct t as [v d cb]. cbn [timing_end timing_toValue] in *. subst cb.
      destruct callback; cbn; split; trivial; try discriminate.
      intros t [= <-]. apply isRestOffset_closed.
    + destruct s as [prev cur fl]. cbn [inFlight] in Ht. subst fl.
      cbn. split; [exact Hprev | discriminate].
  - unfold mountBounce. destruct (shouldBounceOnMount props);
      [| now split].
    cbn. split; [exact Hprev |]. intros t [= <-].
    apply isRestOffset_overshoot.
  - unfold isOpenEffect. destruct (isOpen props); cbn;
      (split; [exact Hprev |]); intros t [= <-].
    + apply isRestOffset_open.
    + apply isRestOffset_closed.
Qed.

Lemma runWith_snoc (IS_RTL : bool) (props : Props) (es : list Event)
    (e : Event) (s : State) :
  exec (runWith IS_RTL props (es ++ [e])) s =
  exec (fire IS_RTL props e) (exec (runWith IS_RTL props es) s).
Proof.
  unfold runWith. rewrite map_app, exec_run_app. cbn [map run].
  now rewrite exec_bind.
Qed.

(** X8.  Whatever happens to a mounted row under given props (moves,
    releases, terminations, completions, the mount timer, the effect on
    [isOpen], in any order), [previousLeft] is always the closed offset,
    the open offset or the overshoot of the bounce, and so is the target
    of the animation in flight. *)
Theorem previousLeft_is_rest_offset (IS_RTL : bool) (props : Props)
    (es : list Event) :
  let s := exec (runWith IS_RTL props es) initial in
  isRestOffset IS_RTL props (_previousLeft s) /\
  (forall t, inFlight s = Some t ->
             isRestOffset IS_RTL props (timing_toValue t)).
Proof.
  cbn zeta. induction es as [| e es IH] using rev_ind.
  - split; [apply isRestOffset_closed | discriminate].
  - rewrite runWith_snoc. destruct IH as [Hprev Hfl].
    apply fire_restOffsets; trivial.
    apply reachable_wellFormed with (IS_RTL := IS_RTL).
    now exists (map (fun e => (props, e)) es).
Qed.

End RowFacts.

(** ** The row on the host's animated value *)

Module HostRowFacts.

Import Row.
Local Open Scope Q_scope.

(** Over a value that forgets a superseded animation without a word, the
    handlers are those of [Row]. *)
Lemma silent_handlers (IS_RTL : bool) (props : Props) (g : GestureState) :
  HostRow._handlePanResponderMove setValue IS_RTL g =
    _handlePanResponderMove IS_RTL g /\
  HostRow._handlePanResponderEnd Animated_timing_start IS_RTL props g =
    _handlePanResponderEnd IS_RTL props g.
Proof. split; reflexivity. Qed.

Ltac host_step :=
  cbv beta iota zeta delta
    [HostRow.fire HostRow._handlePanResponderMove
     HostRow._handlePanResponderEnd HostRow._swipeFullSpeed
     HostRow._swipeSlowSpeed HostRow._animateTo
     HostRow._animateToOpenPositionWith HostRow._animateToClosedPosition
     HostRow._animateBounceBack HostRow._animateToOpenPosition
     HostRow.Animated_setValue HostRow.Animated_start HostRow.stop
     HostRow.detach HostRow.previousLeftAfterEnd];
  RowFacts.step_handler.

(** The move handler on the host, branch by branch. *)
Lemma move_eq (IS_RTL : bool) (props : Props) (g : GestureState)
    (s : State) :
  wellFormed s ->
  HostRow.fire IS_RTL props (HostRow.onPanResponderMove g) s =
  if value (_isSwipingExcessivelyRightFromClosedPosition IS_RTL g) s then
    (tt, s, [])
  else
    (tt,
     {| _previousLeft := HostRow.previousLeftAfterEnd s;
        currentLeft :=
          _previousLeft s +
          (if value (_isSwipingRightFromClosed IS_RTL g) s
           then dx g / SLOW_SPEED_SWIPE_FACTOR
           else dx g);
        inFlight := None |},
     [onSwipeStart]).
Proof.
  intros Hwf. destruct s as [prev cur [t |]].
  - destruct (Hwf t eq_refl) as [callback Hcb].
    destruct t as [v d cb]. cbn [timing_end timing_toValue] in Hcb. subst cb.
    host_step.
    destruct callback;
      repeat match goal with
      | |- context [if ?b then _ else _] => destruct b
      end; cbn [andb]; reflexivity.
  - host_step.
    repeat match goal with
    | |- context [if ?b then _ else _] => destruct b
    end; cbn [andb]; reflexivity.
Qed.

(** The release handler on the host: the decision and the animation are
    those of the handler, taken on [previousLeft] as it was; the animation
    that was attached is ended first. *)
Lemma release_eq (IS_RTL : bool) (props : Props) (g : GestureState)
    (s : State) :
  wellFormed s ->
  HostRow._handlePanResponderEnd HostRow.Animated_start IS_RTL props g s =
  (tt,
   {| _previousLeft := HostRow.previousLeftAfterEnd s;
      currentLeft := currentLeft s;
      inFlight := inFlight (exec (_handlePanResponderEnd IS_RTL props g) s) |},
   log (_handlePanResponderEnd IS_RTL props g) s).
Proof.
  intros Hwf. unfold log, exec. rewrite RowFacts.handlePanResponderEnd_eq.
  destruct s as [prev cur [t |]].
  - destruct (Hwf t eq_refl) as [callback Hcb].
    destruct t as [v d cb]. cbn [timing_end timing_toValue] in Hcb. subst cb.
    host_step. unfold started, animation, openOffset, directionCorrected.
    destruct callback, IS_RTL;
      repeat match goal with
      | |- context [if ?b then _ else _] => destruct b
      end; reflexivity.
  - host_step. unfold started, animation, openOffset, directionCorrected.
    destruct IS_RTL;
      repeat match goal with
      | |- context [if ?b then _ else _] => destruct b
      end; reflexivity.
Qed.

Lemma host_fire_end (IS_RTL : bool) (props : Props) (g : GestureState)
    (e : HostRow.Event) :
  e = HostRow.onPanResponderRelease g \/
  e = HostRow.onPanResponderTerminate g ->
  HostRow.fire IS_RTL props e =
  HostRow._handlePanResponderEnd HostRow.Animated_start IS_RTL props g.
Proof. now intros [-> | ->]. Qed.



(** *** Where [previousLeft] is written *)




(** *** Releases and drags on the host *)

Lemma nothing_attached_wellFormed (s : State) :
  inFlight s = None -> wellFormed s.
Proof. intros Hnone t Ht. congruence. Qed.

Lemma move_nothing_attached (IS_RTL : bool) (props : Props)
    (g : GestureState) (s : State) :
  inFlight s = None ->
  HostRow.fire IS_RTL props (HostRow.onPanResponderMove g) s =
  _handlePanResponderMove IS_RTL g s.
Proof.
  intros Hnone.
  rewrite move_eq by now apply nothing_attached_wellFormed.
  rewrite RowFacts.handlePanResponderMove_eq.
  unfold HostRow.previousLeftAfterEnd. rewrite Hnone.
  repeat match goal with
  | |- context [if ?b then _ else _] => destruct b
  end; reflexivity.
Qed.

Lemma release_nothing_attached (IS_RTL : bool) (props : Props)
    (g : GestureState) (s : State) :
  inFlight s = None ->
  HostRow._handlePanResponderEnd HostRow.Animated_start IS_RTL props g s =
  _handlePanResponderEnd IS_RTL props g s.
Proof.
  intros Hnone.
  rewrite release_eq by now apply nothing_attached_wellFormed.
  unfold HostRow.previousLeftAfterEnd. rewrite Hnone.
  destruct (RowFacts.release_ends_swipe_started IS_RTL props g s)
    as (t & Ht & _).
  unfold log. unfold exec in *.
  destruct (_handlePanResponderEnd IS_RTL props g s) as [[[] s1] l].
  cbn [fst snd] in *. subst s1. reflexivity.
Qed.

Lemma drag_nothing_attached (IS_RTL : bool) (props : Props)
    (gs : list GestureState) (s : State) :
  inFlight s = None ->
  exec (HostRow.drag IS_RTL props gs) s = exec (drag IS_RTL props gs) s.
Proof.
  revert s. induction gs as [| g gs IH]; intros s Hnone; [reflexivity |].
  rewrite RowFacts.drag_cons. unfold HostRow.drag. cbn [map HostRow.run].
  rewrite RowFacts.exec_bind.
  fold (HostRow.drag IS_RTL props gs).
  unfold exec at 2. rewrite move_nothing_attached by exact Hnone.
  fold (exec (_handlePanResponderMove IS_RTL g) s).
  apply IH. now rewrite RowFacts.move_keeps_inFlight.
Qed.

(** A drag notifies [onSwipeStart] and nothing else. *)
Lemma drag_log (IS_RTL : bool) (props : Props) (gs : list GestureState)
    (s : State) :
  wellFormed s ->
  (exists xs : list GestureState,
     log (HostRow.drag IS_RTL props gs) s =
     map (fun _ => onSwipeStart) xs) /\
  wellFormed (exec (HostRow.drag IS_RTL props gs) s).
Proof.
  revert s. induction gs as [| g gs IH]; intros s Hwf.
  - split; [now exists [] | exact Hwf].
  - unfold HostRow.drag. cbn [map HostRow.run].
    rewrite RowFacts.log_bind, RowFacts.exec_bind.
    fold (HostRow.drag IS_RTL props gs).
    pose proof (move_eq IS_RTL props g Hwf) as Hmove.
    set (move := HostRow.fire IS_RTL props (HostRow.onPanResponderMove g))
      in *.
    destruct (value (_isSwipingExcessivelyRightFromClosedPosition IS_RTL g) s).
    + assert (Hexec : exec move s = s) by (unfold exec; now rewrite Hmove).
      assert (Hlog : log move s = []) by (unfold log; now rewrite Hmove).
      rewrite Hexec, Hlog. cbn [app]. now apply IH.
    + set (s1 := {| _previousLeft := HostRow.previousLeftAfterEnd s;
                    currentLeft := _ ; inFlight := None |}) in Hmove.
      assert (Hexec : exec move s = s1) by (unfold exec; now rewrite Hmove).
      assert (Hlog : log move s = [onSwipeStart])
        by (unfold log; now rewrite Hmove).
      rewrite Hexec, Hlog.
      assert (Hwf1 : wellFormed s1) by (intros t [=]).
      destruct (IH s1 Hwf1) as [[xs Hxs] Hwf'].
      split; [| exact Hwf'].
      exists (g :: xs). cbn [map app]. now rewrite Hxs.
Qed.

(** X1.  On the host, every release or termination notifies [onSwipeEnd]
    exactly once and last, preceded by at most one of [onOpen] and
    [onClose] and never by [onSwipeStart]; it does not write the live
    value, and it leaves exactly one animation attached, towards the closed
    offset, the open offset or the overshoot. *)
Theorem release_ends_swipe (IS_RTL : bool) (props : Props)
    (g : GestureState) (s : State) (e : HostRow.Event) :
  wellFormed s ->
  e = HostRow.onPanResponderRelease g \/
  e = HostRow.onPanResponderTerminate g ->
  let release := HostRow.fire IS_RTL props e in
  (log release s = [onSwipeEnd] \/
   log release s = [onOpen; onSwipeEnd] \/
   log release s = [onClose; onSwipeEnd]) /\
  currentLeft (exec release s) = currentLeft s /\
  exists t,
    inFlight (exec release s) = Some t /\
    isRestOffset IS_RTL props (timing_toValue t) /\
    (exists callback,
       timing_end t = animateTo_end (timing_toValue t) callback).
Proof.
  intros Hwf He release. subst release. rewrite (host_fire_end IS_RTL props He).
  unfold log, exec. rewrite release_eq by exact Hwf. cbn [fst snd].
  split; [apply RowFacts.release_log |].
  split; [reflexivity |].
  destruct (RowFacts.release_ends_swipe_started IS_RTL props g s)
    as (t & Ht & Hcb).
  exists t. cbn [inFlight]. unfold exec in *. rewrite Ht.
  split; [reflexivity |]. split; [| exact Hcb].
  now apply RowFacts.release_target with (g := g) (s := s).
Qed.

Lemma release_ends_swipe_witness :
  wellFormed HostRow.opening /\
  log (HostRow.fire false wideProps (HostRow.onPanResponderRelease nudgeRight))
    HostRow.opening = [onOpen; onSwipeEnd] /\
  currentLeft
    (exec (HostRow.fire false wideProps
             (HostRow.onPanResponderRelease nudgeRight)) HostRow.opening) =
  currentLeft HostRow.opening.
Proof.
  assert (Hwf : wellFormed HostRow.opening)
    by (intros t [= <-]; eexists; reflexivity).
  split; [exact Hwf |]. split; [reflexivity |].
  exact (proj1 (proj2
           (release_ends_swipe false wideProps (g := nudgeRight)
              (e := HostRow.onPanResponderRelease nudgeRight) Hwf
              (or_introl eq_refl)))).
Defined.

(** X4.  While a closed row with no animation attached is dragged, however
    far and in whatever order of moves, its live offset never passes 30
    units to the right (direction-corrected) of the closed position, and
    the moves leave [previousLeft] as it was and nothing attached. *)
Theorem hint_drag_capped (IS_RTL : bool) (props : Props)
    (gs : list GestureState) (s : State) :
  inFlight s = None ->
  _previousLeft s == 0 ->
  directionCorrected IS_RTL (currentLeft s) <= 30 ->
  let s' := exec (HostRow.drag IS_RTL props gs) s in
  directionCorrected IS_RTL (currentLeft s') <= 30 /\
  _previousLeft s' = _previousLeft s /\
  inFlight s' = None.
Proof.
  intros Hnone Hclosed Hcur s'. subst s'.
  rewrite drag_nothing_attached by exact Hnone.
  destruct (RowFacts.drag_keeps IS_RTL props gs s) as [Hprev Hfl].
  split; [| split; [exact Hprev | now rewrite Hfl]].
  clear Hprev Hfl Hnone.
  revert s Hclosed Hcur. induction gs as [| g gs IH]; intros s Hclosed Hcur;
    [exact Hcur |].
  rewrite RowFacts.drag_cons. apply IH.
  - now rewrite RowFacts.move_keeps_previousLeft.
  - now apply RowFacts.move_from_closed_capped.
Qed.

Lemma hint_drag_capped_witness :
  inFlight initial = None /\
  _previousLeft initial == 0 /\
  directionCorrected false
    (currentLeft
       (exec (HostRow.drag false wideProps [nudgeRight; dragRight; flingRight])
          initial)) <= 30.
Proof.
  assert (H0 : inFlight initial = None) by reflexivity.
  assert (H1 : _previousLeft initial == 0) by reflexivity.
  assert (H2 : directionCorrected false (currentLeft initial) <= 30)
    by (vm_compute; discriminate).
  split; [exact H0 |]. split; [exact H1 |].
  apply (hint_drag_capped false wideProps
           [nudgeRight; dragRight; flingRight] initial H0 H1 H2).
Defined.

(** X5.  With no animation attached when the drag begins, the outcome of
    the release does not depend on the moves of the drag: after any drag
    the release notifies the same callbacks and attaches the same animation
    as it would have without the drag, from the same [previousLeft]; only
    the live value differs. *)
Theorem release_after_drag (IS_RTL : bool) (props : Props)
    (gs : list GestureState) (g : GestureState) (s : State) :
  inFlight s = None ->
  let dragged := exec (HostRow.drag IS_RTL props gs) s in
  let release :=
    HostRow.fire IS_RTL props (HostRow.onPanResponderRelease g) in
  log release dragged = log release s /\
  inFlight (exec release dragged) = inFlight (exec release s) /\
  _previousLeft (exec release dragged) = _previousLeft (exec release s) /\
  currentLeft (exec release dragged) = currentLeft dragged.
Proof.
  intros Hnone dragged release. subst release dragged. cbn [HostRow.fire].
  rewrite drag_nothing_attached by exact Hnone.
  destruct (RowFacts.drag_keeps IS_RTL props gs s) as [Hprev Hfl].
  rewrite Hnone in Hfl.
  set (dragged := exec (drag IS_RTL props gs) s) in *.
  pose proof (@release_nothing_attached IS_RTL props g dragged Hfl) as Hd.
  pose proof (@release_nothing_attached IS_RTL props g s Hnone) as Hs.
  destruct (RowFacts.release_depends_on_previousLeft IS_RTL props g s dragged
              Hprev) as [Hlog Hfl'].
  destruct (RowFacts.release_ends_swipe_started IS_RTL props g s)
    as (t & Ht & _).
  destruct (RowFacts.release_ends_swipe_started IS_RTL props g dragged)
    as (t' & Ht' & _).
  unfold log, exec in *. rewrite Hd, Hs. rewrite Ht, Ht' in *.
  cbn [started inFlight _previousLeft currentLeft] in *.
  repeat split; trivial.
Qed.

Lemma release_after_drag_witness :
  inFlight initial = None /\
  log (HostRow.fire false wideProps (HostRow.onPanResponderRelease swipeLeft))
    (exec (HostRow.drag false wideProps [nudgeRight; swipeLeft]) initial) =
  log (HostRow.fire false wideProps (HostRow.onPanResponderRelease swipeLeft))
    initial.
Proof.
  assert (H0 : inFlight initial = None) by reflexivity.
  split; [exact H0 |].
  exact (proj1
           (release_after_drag false wideProps [nudgeRight; swipeLeft]
              swipeLeft initial H0)).
Defined.

(** *** [preventSwipeRight] and the layout direction *)

(** X9.  [preventSwipeRight] is tested on the raw [dx] of the sample at
    capture, the release handler on the direction-corrected [dx] of the
    sample at release.  A closed row with [preventSwipeRight] claims only
    samples with [dx < -10].  A release from closed with [dx < 0] is
    answered as the rightward hint, by [onOpen] and the bounce, under
    right-to-left and never under left-to-right; a release from closed with
    [dx > 0] is answered as the hint under left-to-right, whatever sample
    was claimed. *)
Theorem preventSwipeRight_by_direction (IS_RTL : bool) (props : Props)
    (claimed released : GestureState) (atCapture s : State) :
  preventSwipeRight props = true ->
  _previousLeft atCapture == 0 ->
  value (_handleMoveShouldSetPanResponderCapture props claimed) atCapture
    = true ->
  _previousLeft s == 0 ->
  wellFormed s ->
  let release :=
    HostRow.fire IS_RTL props (HostRow.onPanResponderRelease released) in
  let hint :=
    log release s = [onOpen; onSwipeEnd] /\
    inFlight (exec release s) =
    Some (animation (- directionCorrected IS_RTL 30) 300
            animateToClosedPositionDuringBounce) in
  dx claimed < -10 /\
  (dx released < 0 ->
   value (_isSwipingRightFromClosed IS_RTL released) s = IS_RTL) /\
  (dx released < 0 -> IS_RTL = true -> hint) /\
  (0 < dx released -> IS_RTL = false -> hint).
Proof.
  intros Hp Hclosed Hcap Hs Hwf release hint.
  rewrite RowFacts.capture_unfold, andb_true_iff, RowFacts.isValidSwipe_spec
    in Hcap.
  destruct Hcap as (_ & Hdx & Hex).
  assert (Hneg : dx claimed < -10).
  { destruct (Qlt_le_dec 0 (dx claimed)) as [Hpos | Hnpos].
    - exfalso. apply Hex. now repeat split.
    - revert Hdx. apply Qabs_case; intros; lra. }
  assert (Hhint :
    value (_isSwipingRightFromClosed IS_RTL released) s = true -> hint).
  { intros Hright. subst hint release. cbn [HostRow.fire].
    unfold log, exec. rewrite release_eq by exact Hwf. cbn [fst snd inFlight].
    unfold log, exec. rewrite RowFacts.handlePanResponderEnd_eq, Hright.
    split; reflexivity. }
  split; [exact Hneg |].
  split.
  { intros Hrel. destruct IS_RTL.
    - apply RowFacts.swipingRight_true. split; [exact Hs |].
      unfold directionCorrected. lra.
    - apply RowFacts.swipingRight_false. intros [_ H].
      unfold directionCorrected in H. lra. }
  split.
  - intros Hrel ->. apply Hhint. apply RowFacts.swipingRight_true.
    split; [exact Hs |]. unfold directionCorrected. lra.
  - intros Hrel ->. apply Hhint. apply RowFacts.swipingRight_true.
    split; [exact Hs |]. unfold directionCorrected. lra.
Qed.

Lemma preventSwipeRight_by_direction_witness :
  preventSwipeRight bounceProps = true /\
  value (_handleMoveShouldSetPanResponderCapture bounceProps swipeLeft)
    initial = true /\
  dx swipeLeft < -10 /\
  log (HostRow.fire false bounceProps (HostRow.onPanResponderRelease flingRight))
    initial = [onOpen; onSwipeEnd].
Proof.
  assert (H1 : preventSwipeRight bounceProps = true) by reflexivity.
  assert (H2 : _previousLeft initial == 0) by reflexivity.
  assert (H3 :
    value (_handleMoveShouldSetPanResponderCapture bounceProps swipeLeft)
      initial = true) by reflexivity.
  assert (H4 : wellFormed initial) by (intros t [=]).
  split; [exact H1 |]. split; [exact H3 |].
  pose proof (@preventSwipeRight_by_direction false bounceProps
                swipeLeft flingRight initial initial
                H1 H2 H3 H2 H4) as (Hneg & _ & _ & Hhint).
  split; [exact Hneg |].
  apply Hhint; reflexivity.
Defined.

End HostRowFacts.

(** ** The quick-actions list *)

Module QuickActionsListFacts.

Import QuickActionsList.

Section Facts.

Variables ItemT ReactNode : Type.
Variable props : Props ItemT ReactNode.

Lemma ReactText_eqb_eq (a b : ReactText) :
  ReactText_eqb a b = true <-> a = b.
Proof.
  destruct a as [s | n], b as [t | m]; cbn.
  - rewrite String.eqb_eq. split; [now intros -> | now intros [= ->]].
  - split; discriminate.
  - split; discriminate.
  - rewrite Nat.eqb_eq. split; [now intros -> | now intros [= ->]].
Qed.

Lemma isOpenRow_renderItem (st : State) (info : ListRenderItemInfo ItemT) :
  isOpenRow (_renderItem props st info) = true ->
  openRowKey st = Some (keyOf props info).
Proof.
  unfold _renderItem.
  destruct (JS.orDefault _ (renderQuickActions props) info); cbn;
    [| discriminate].
  unfold strict_eq_nullable. destruct (openRowKey st) as [k |];
    [| discriminate].
  now intros ->%ReactText_eqb_eq.
Qed.

Lemma openRows_cons (st : State) (info : ListRenderItemInfo ItemT) (infos : list (ListRenderItemInfo ItemT)) :
  openRows (render props st (info :: infos)) =
  ((if isOpenRow (_renderItem props st info) then 1 else 0)
   + openRows (render props st infos))%nat.
Proof.
  unfold openRows, render. cbn [map filter].
  now destruct (isOpenRow (_renderItem props st info)).
Qed.

(** No row is open among items whose keys all differ from the open key. *)
Lemma openRows_other_keys (st : State) (k : ReactText) (infos : list (ListRenderItemInfo ItemT)) :
  openRowKey st = Some k ->
  existsb (ReactText_eqb k) (map (keyOf props) infos) = false ->
  openRows (render props st infos) = 0%nat.
Proof.
  intros Hk. induction infos as [| info infos IH]; [reflexivity |].
  cbn [map existsb]. intros [Hhd Htl]%orb_false_iff.
  rewrite openRows_cons, (IH Htl).
  destruct (isOpenRow (_renderItem props st info)) eqn:Ho; [| reflexivity].
  apply isOpenRow_renderItem in Ho. rewrite Hk in Ho. injection Ho as ->.
  assert (ReactText_eqb (keyOf props info) (keyOf props info) = true)
    by now apply ReactText_eqb_eq.
  congruence.
Qed.

Lemma openRows_distinct (st : State) (infos : list (ListRenderItemInfo ItemT)) :
  distinctKeys (map (keyOf props) infos) = true ->
  (openRows (render props st infos) <= 1)%nat.
Proof.
  induction infos as [| info infos IH]; [cbn; lia |].
  cbn [map distinctKeys]. intros [Hhd Htl]%andb_true_iff.
  rewrite openRows_cons.
  destruct (isOpenRow (_renderItem props st info)) eqn:Ho.
  - apply isOpenRow_renderItem in Ho. apply negb_true_iff in Hhd.
    rewrite (openRows_other_keys st infos Ho Hhd). lia.
  - specialize (IH Htl). lia.
Qed.

(** Without a key extractor the keys are the indices, which are distinct. *)
Lemma index_keys_distinct (data : list ItemT) (i : nat) :
  keyExtractor props = None ->
  distinctKeys (map (keyOf props) (infosFrom i data)) = true.
Proof.
  intros Hnone.
  assert (Hfresh : forall data j i,
    (j < i)%nat ->
    existsb (ReactText_eqb (number j))
      (map (keyOf props) (infosFrom i data)) = false).
  { clear data i. induction data as [| x data IH]; intros j i Hlt;
      [reflexivity |].
    cbn [infosFrom map existsb]. unfold keyOf at 1. rewrite Hnone.
    cbn [index ReactText_eqb]. rewrite IH by lia.
    apply orb_false_iff. split; [| reflexivity].
    apply Nat.eqb_neq. lia. }
  revert i. induction data as [| x data IH]; intros i; [reflexivity |].
  cbn [infosFrom map distinctKeys]. unfold keyOf at 1. rewrite Hnone.
  cbn [index]. rewrite Hfresh by lia. now rewrite IH.
Qed.

(** The open key of a reachable state is the key of a rendered row. *)
Lemma reachable_openRowKey (infos : list (ListRenderItemInfo ItemT)) (st : State) :
  reachable props infos st ->
  forall k, openRowKey st = Some k -> In k (map (keyOf props) infos).
Proof.
  induction 1 as [| st st' Hreach IH Hstep]; [discriminate |].
  destruct Hstep as [st | st ref | st r callback Hin Hcb].
  - unfold _onScroll. cbn [fst]. destruct (openRowKey st) eqn:Hk.
    + cbn. discriminate.
    + intros k Hk'. rewrite Hk in Hk'. discriminate.
  - destruct ref; exact IH.
  - unfold render in Hin. apply in_map_iff in Hin as (info & Hrow & Hinfo).
    unfold _renderItem in Hrow.
    destruct (JS.orDefault _ (renderQuickActions props) info);
      [| discriminate].
    injection Hrow as <-. cbn [onOpen onClose onSwipeEnd onSwipeStart] in Hcb.
    destruct Hcb as [<- | [<- | [<- | [<- | []]]]].
    + cbn. intros k [= <-]. now apply in_map.
    + discriminate.
    + unfold _setListViewScrollable, _setListViewScrollableTo.
      destruct (_flatListRef st); exact IH.
    + unfold _setListViewNotScrollable, _setListViewScrollableTo.
      destruct (_flatListRef st); exact IH.
Qed.

(** Opening a rendered row is a step of the list. *)
Lemma reachable_onOpen (infos : list (ListRenderItemInfo ItemT))
    (info : ListRenderItemInfo ItemT) (view : ReactNode) (st : State) :
  In info infos ->
  JS.orDefault (fun _ => None) (renderQuickActions props) info = Some view ->
  reachable props infos st ->
  reachable props infos (_onOpen (keyOf props info) st).
Proof.
  intros Hin Hview Hreach.
  apply (reachable_step Hreach).
  assert (Hrow : exists r,
    _renderItem props st info = SwipeableRow r /\
    onOpen r = _onOpen (keyOf props info)).
  { unfold _renderItem. rewrite Hview. eexists. split; reflexivity. }
  destruct Hrow as (r & Hrow & Hopen). rewrite <- Hopen.
  apply step_row with (r := r).
  - unfold render. rewrite <- Hrow. now apply in_map.
  - now left.
Qed.

End Facts.

(** The list with distinct keys.  Every rendered row receives
    [isOpen = (rowKey === openRowKey)] for the single nullable [openRowKey];
    a row's [onOpen] sets [openRowKey] to its key, its [onClose] sets it to
    null whatever the key, and a scroll event sets it to null; so in every
    reachable state of a list whose rendered items have pairwise distinct
    keys, at most one row is rendered with [isOpen = true].  The keys are
    distinct whenever no key extractor is given. *)
Theorem at_most_one_row_open (ItemT ReactNode : Type)
    (props : Props ItemT ReactNode)
    (infos : list (ListRenderItemInfo ItemT)) (st : State) :
  reachable props infos st ->
  distinctKeys (map (keyOf props) infos) = true ->
  (openRows (render props st infos) <= 1)%nat /\
  (forall info r,
     _renderItem props st info = SwipeableRow r ->
     Row.isOpen (rowProps r) =
       strict_eq_nullable (keyOf props info) (openRowKey st) /\
     (forall st', openRowKey (onOpen r st') = Some (keyOf props info)) /\
     (forall st', openRowKey (onClose r st') = None)) /\
  (forall key st',
     openRowKey (_onOpen key st') = Some key /\
     openRowKey (_onClose key st') = None) /\
  openRowKey (fst (_onScroll props st)) = None /\
  (forall k, openRowKey st = Some k -> In k (map (keyOf props) infos)) /\
  (keyExtractor props = None ->
   forall data i,
     distinctKeys (map (keyOf props) (infosFrom i data)) = true).
Proof.
  intros Hreach Hkeys.
  split; [now apply openRows_distinct |].
  split.
  { intros info r. unfold _renderItem.
    destruct (JS.orDefault _ (renderQuickActions props) info);
      [| discriminate].
    intros [= <-]. cbn. repeat split; reflexivity. }
  split; [intros key st'; split; reflexivity |].
  split.
  { unfold _onScroll. cbn [fst].
    destruct (openRowKey st) eqn:Hk; [reflexivity | exact Hk]. }
  split; [now apply reachable_openRowKey |].
  intros Hnone data i. now apply index_keys_distinct.
Qed.

Lemma at_most_one_row_open_witness :
  let st := _onOpen (number 1) initial in
  reachable keyedByIndex twoAlike st /\
  distinctKeys (map (keyOf keyedByIndex) twoAlike) = true /\
  (openRows (render keyedByIndex st twoAlike) <= 1)%nat.
Proof.
  intros st.
  assert (Hreach : reachable keyedByIndex twoAlike st).
  { apply (@reachable_onOpen _ _ keyedByIndex twoAlike
             {| item := "a"%string; index := 1 |} tt).
    - right. left. reflexivity.
    - reflexivity.
    - apply reachable_initial. }
  assert (Hkeys : distinctKeys (map (keyOf keyedByIndex) twoAlike) = true)
    by reflexivity.
  split; [exact Hreach |]. split; [exact Hkeys |].
  apply (at_most_one_row_open Hreach Hkeys).
Defined.

(** C1.  The component is described as ensuring that at most one row is
    swiped open, but the open row is told from the others by its key only:
    when two rendered items have the same key and one of them is opened,
    both rows are rendered with [isOpen = true]. *)
Lemma duplicate_keys_counterexample :
  let st := _onOpen (text "a") initial in
  reachable keyedByItem twoAlike st /\
  map (@isOpenRow unit) (render keyedByItem st twoAlike) = [true; true] /\
  openRows (render keyedByItem st twoAlike) = 2%nat /\
  ~ (openRows (render keyedByItem st twoAlike) <= 1)%nat.
Proof.
  intros st. split.
  { apply (@reachable_onOpen _ _ keyedByItem twoAlike
             {| item := "a"%string; index := 0 |} tt).
    - left. reflexivity.
    - reflexivity.
    - apply reachable_initial. }
  split; [reflexivity |]. split; [reflexivity |].
  cbn. lia.
Qed.

(** *** Further properties of the list *)

Section MoreFacts.

Variables ItemT ReactNode : Type.
Variable props : Props ItemT ReactNode.

Lemma existsb_key_In (k : ReactText) (keys : list ReactText) :
  existsb (ReactText_eqb k) keys = false -> ~ In k keys.
Proof.
  intros Hex Hin.
  assert (existsb (ReactText_eqb k) keys = true).
  { apply existsb_exists. exists k. split; [exact Hin |].
    now apply ReactText_eqb_eq. }
  congruence.
Qed.

Lemma openRows_closed (st : State)
    (infos : list (ListRenderItemInfo ItemT)) :
  openRowKey st = None -> openRows (render props st infos) = 0%nat.
Proof.
  intros Hnone. induction infos as [| info infos IH]; [reflexivity |].
  rewrite openRows_cons, IH.
  destruct (isOpenRow (_renderItem props st info)) eqn:Ho; [| reflexivity].
  apply isOpenRow_renderItem in Ho. congruence.
Qed.

Lemma isOpenRow_own_key (st : State) (info : ListRenderItemInfo ItemT)
    (view : ReactNode) :
  JS.orDefault (fun _ => None) (renderQuickActions props) info = Some view ->
  openRowKey st = Some (keyOf props info) ->
  isOpenRow (_renderItem props st info) = true.
Proof.
  intros Hview Hk. unfold _renderItem. rewrite Hview. cbn.
  rewrite Hk. cbn. now apply ReactText_eqb_eq.
Qed.

Lemma openRows_one (st : State) (info : ListRenderItemInfo ItemT)
    (view : ReactNode) (infos : list (ListRenderItemInfo ItemT)) :
  distinctKeys (map (keyOf props) infos) = true ->
  In info infos ->
  JS.orDefault (fun _ => None) (renderQuickActions props) info = Some view ->
  openRowKey st = Some (keyOf props info) ->
  openRows (render props st infos) = 1%nat.
Proof.
  intros Hkeys Hin Hview Hk.
  induction infos as [| x infos IH]; [contradiction |].
  cbn [map distinctKeys] in Hkeys.
  apply andb_true_iff in Hkeys as [Hhd Htl]. apply negb_true_iff in Hhd.
  rewrite openRows_cons. destruct Hin as [-> | Hin].
  - rewrite (isOpenRow_own_key st info Hview Hk).
    now rewrite (openRows_other_keys props st infos Hk Hhd).
  - rewrite (IH Htl Hin).
    destruct (isOpenRow (_renderItem props st x)) eqn:Ho; [| reflexivity].
    apply isOpenRow_renderItem in Ho. rewrite Hk in Ho. injection Ho as Ho.
    exfalso. apply (existsb_key_In _ _ Hhd). rewrite <- Ho.
    now apply in_map.
Qed.

End MoreFacts.

(** X10.  In a list whose rendered items have pairwise distinct keys, once
    a rendered row with quick actions has called [onOpen], exactly one row
    is rendered with [isOpen = true], namely that row, whichever row was
    open before; the others are rendered closed without any call to their
    [onClose]. *)
Theorem opened_row_is_the_open_one (ItemT ReactNode : Type)
    (props : Props ItemT ReactNode)
    (infos : list (ListRenderItemInfo ItemT))
    (info : ListRenderItemInfo ItemT) (r : RowElement ReactNode)
    (st : State) :
  distinctKeys (map (keyOf props) infos) = true ->
  In info infos ->
  _renderItem props st info = SwipeableRow r ->
  let st' := onOpen r st in
  openRows (render props st' infos) = 1%nat /\
  isOpenRow (_renderItem props st' info) = true /\
  (forall other,
     In other infos ->
     keyOf props other <> keyOf props info ->
     isOpenRow (_renderItem props st' other) = false).
Proof.
  intros Hkeys Hin Hrow st'.
  assert (Hview : exists view,
    JS.orDefault (fun _ => None) (renderQuickActions props) info = Some view /\
    onOpen r = _onOpen (keyOf props info)).
  { unfold _renderItem in Hrow.
    destruct (JS.orDefault _ (renderQuickActions props) info) as [view |];
      [| discriminate].
    injection Hrow as <-. now exists view. }
  destruct Hview as (view & Hview & Hopen).
  assert (Hk : openRowKey st' = Some (keyOf props info))
    by (unfold st'; now rewrite Hopen).
  split; [now apply openRows_one with (info := info) (view := view) |].
  split; [now apply isOpenRow_own_key with (view := view) |].
  intros other _ Hother.
  destruct (isOpenRow (_renderItem props st' other)) eqn:Ho; [| reflexivity].
  apply isOpenRow_renderItem in Ho. congruence.
Qed.

Lemma opened_row_is_the_open_one_witness :
  let info := {| item := "a"%string; index := 1 |} in
  exists r,
    _renderItem keyedByIndex (_onOpen (number 0) initial) info
    = SwipeableRow r /\
    openRows (render keyedByIndex (onOpen r (_onOpen (number 0) initial))
                twoAlike) = 1%nat.
Proof.
  intros info. eexists. split; [reflexivity |].
  apply (@opened_row_is_the_open_one _ _ keyedByIndex twoAlike info _
           (_onOpen (number 0) initial)).
  - reflexivity.
  - right. left. reflexivity.
  - reflexivity.
Defined.

(** X11.  After any row's [onClose], and after any scroll event, no row is
    rendered open, whatever the keys of the items; the scroll event reaches
    the caller's [onScroll] exactly when one was supplied. *)
Theorem close_and_scroll_close_all (ItemT ReactNode : Type)
    (props : Props ItemT ReactNode)
    (infos : list (ListRenderItemInfo ItemT)) (key : ReactText)
    (st : State) :
  openRows (render props (_onClose key st) infos) = 0%nat /\
  openRows (render props (fst (_onScroll props st)) infos) = 0%nat /\
  snd (_onScroll props st) = onScroll props /\
  _onScroll props (fst (_onScroll props st)) = _onScroll props st.
Proof.
  split; [now apply openRows_closed |].
  assert (Hnone : openRowKey (fst (_onScroll props st)) = None).
  { unfold _onScroll. cbn [fst].
    destruct (openRowKey st) eqn:Hk; [reflexivity | exact Hk]. }
  split; [now apply openRows_closed |].
  split; [reflexivity |].
  unfold _onScroll at 1. cbn [fst] in *. rewrite Hnone.
  unfold _onScroll. destruct (openRowKey st); reflexivity.
Qed.

(** X12.  The reveal distance handed to a row: the result of the sizing
    function when [maxSwipeDistance] is one, even if that is 0; the fixed
    distance when it is a number other than 0; and 50 when it is 0 or not
    given, so that a fixed distance is never 0. *)
Theorem maxSwipeDistance_fallback (ItemT ReactNode : Type)
    (props : Props ItemT ReactNode) (info : ListRenderItemInfo ItemT)
    (st : State) :
  match maxSwipeDistance props with
  | Some (@distanceOf _ f) => _getMaxSwipeDistance props info = f info
  | Some (@fixedDistance _ d) =>
      (d == 0 -> _getMaxSwipeDistance props info = 50%Q) /\
      (~ d == 0 -> _getMaxSwipeDistance props info = d) /\
      ~ _getMaxSwipeDistance props info == 0
  | None => _getMaxSwipeDistance props info = 50%Q
  end /\
  (forall r,
     _renderItem props st info = SwipeableRow r ->
     Row.maxSwipeDistance (rowProps r) = _getMaxSwipeDistance props info).
Proof.
  split.
  - unfold _getMaxSwipeDistance.
    destruct (maxSwipeDistance props) as [[d | f] |]; try reflexivity.
    destruct (Qeq_bool d 0) eqn:Hd.
    + apply Qeq_bool_iff in Hd. repeat split; trivial; [tauto | discriminate].
    + apply Qeq_bool_neq in Hd. repeat split; trivial. tauto.
  - intros r. unfold _renderItem.
    destruct (JS.orDefault _ (renderQuickActions props) info);
      [| discriminate].
    now intros [= <-].
Qed.

(** X13.  The scroll lock and the open row are independent parts of the
    list's state: [onSwipeStart] and [onSwipeEnd] only set [scrollEnabled]
    on the mounted [FlatList], to false and to true, and do nothing at all
    before it is mounted; [onOpen], [onClose] and scroll events never touch
    the [FlatList] handle. *)
Theorem scroll_lock_independent (ItemT ReactNode : Type)
    (props : Props ItemT ReactNode) (key : ReactText) (st : State) :
  let locked := _setListViewNotScrollable st in
  let unlocked := _setListViewScrollable locked in
  openRowKey locked = openRowKey st /\
  openRowKey unlocked = openRowKey st /\
  match _flatListRef st with
  | Some _ =>
      _flatListRef locked = Some {| scrollEnabled := false |} /\
      _flatListRef unlocked = Some {| scrollEnabled := true |}
  | None => locked = st /\ unlocked = st
  end /\
  _flatListRef (_onOpen key st) = _flatListRef st /\
  _flatListRef (_onClose key st) = _flatListRef st /\
  _flatListRef (fst (_onScroll props st)) = _flatListRef st.
Proof.
  cbn zeta.
  unfold _setListViewNotScrollable, _setListViewScrollable,
    _setListViewScrollableTo, _onScroll.
  destruct st as [k [ref |]]; cbn; repeat split; trivial;
    destruct k; reflexivity.
Qed.

(** X14.  [bounceFirstRowOnMount] is handed to every rendered row, not
    only to the first: with the flag set, the rows told to bounce on mount
    are exactly the rows with quick actions. *)
Theorem bounce_flag_reaches_every_row (ItemT ReactNode : Type)
    (props : Props ItemT ReactNode)
    (infos : list (ListRenderItemInfo ItemT)) (st : State) :
  map (@bouncesOnMount ReactNode) (render props st infos) =
  map (fun e => bounceFirstRowOnMount props && isSwipeableRow e)
    (render props st infos) /\
  (bounceFirstRowOnMount props = true ->
   List.length (filter (@bouncesOnMount ReactNode) (render props st infos)) =
   List.length (filter (@isSwipeableRow ReactNode) (render props st infos))).
Proof.
  assert (Hrow : forall info,
    bouncesOnMount (_renderItem props st info) =
    bounceFirstRowOnMount props && isSwipeableRow (_renderItem props st info)).
  { intros info. unfold _renderItem.
    destruct (JS.orDefault _ (renderQuickActions props) info); cbn;
      [now rewrite andb_true_r | now rewrite andb_false_r]. }
  split.
  - unfold render. rewrite !map_map. apply map_ext. exact Hrow.
  - intros Hflag. unfold render.
    induction infos as [| info infos IH]; [reflexivity |].
    cbn [map filter]. rewrite Hrow, Hflag. cbn [andb].
    destruct (isSwipeableRow (_renderItem props st info)); cbn [List.length];
      now rewrite IH.
Qed.

End QuickActionsListFacts.

(** ** The left/right-actions variant *)

Module ActionsRowFacts.

Import ActionsRow.

Section Facts.

Variable Swipeable : Type.
Variable Swipeable_close : Swipeable -> Swipeable.

Lemma close_calls (st : State Swipeable) :
  List.length (filter (Call_eqb close_called) (snd (close Swipeable_close st)))
  = 1%nat.
Proof.
  unfold close, rowRef_current_close. destruct (rowRef st); reflexivity.
Qed.

Lemma close_normal (st : State Swipeable) :
  exists st', fst (close Swipeable_close st) = normal st'.
Proof.
  unfold close, rowRef_current_close.
  destruct (rowRef st); cbn; eauto.
Qed.

End Facts.

Lemma depsChanged_spec (old : option (bool * bool)) (new : bool * bool) :
  depsChanged old new = true <-> old = None \/ old <> Some new.
Proof.
  destruct old as [[c s] |], new as [c' s']; cbn.
  - rewrite negb_true_iff, andb_false_iff. split.
    + intros [H | H]; right; intros [= -> ->];
        now rewrite Bool.eqb_reflx in H.
    + intros [[=] | Hne].
      destruct c, c', s, s'; cbn; auto; now contradiction Hne.
  - split; [now left | reflexivity].
Qed.

(** What a render returns and which calls it makes. *)
Lemma render_outcome (Swipeable : Type)
    (Swipeable_close : Swipeable -> Swipeable)
    (props : Props) (ref : option Swipeable) (st : State Swipeable) :
  let deps := (closeOnScroll props, isScrolling props) in
  let runs :=
    depsChanged (effectDeps st) deps
    && isScrolling props && closeOnScroll props in
  fst (render Swipeable_close props ref st) =
  normal {| rowRef := if runs then option_map Swipeable_close ref else ref;
            effectDeps := Some deps |} /\
  snd (render Swipeable_close props ref st) =
  if runs
  then close_called ::
       match ref with
       | Some _ => [Swipeable_close_called]
       | None => []
       end
  else [].
Proof.
  cbn zeta. unfold render, effect, close, rowRef_current_close.
  destruct (depsChanged (effectDeps st) (closeOnScroll props, isScrolling props));
    destruct (isScrolling props), (closeOnScroll props), ref;
    split; reflexivity.
Qed.

(** C9, as the code has it.  Whenever the effect of a row runs with
    [isScrolling] and [closeOnScroll] both true, the row invokes its own
    [close], once; the effect runs on the row's first render and on every
    render on which one of the two props changed, so a render calls [close]
    exactly when both props are true and this is the first render or one of
    them changed, and a render with both props true and unchanged calls
    nothing.  [close] never throws, and with no [Swipeable] handle mounted
    it returns with the state unchanged and without calling the handle. *)
Theorem close_on_scroll_change (Swipeable : Type)
    (Swipeable_close : Swipeable -> Swipeable)
    (props : Props) (ref : option Swipeable) (st : State Swipeable) :
  let calls := snd (render Swipeable_close props ref st) in
  let deps := (closeOnScroll props, isScrolling props) in
  (In close_called calls <->
   isScrolling props = true /\ closeOnScroll props = true /\
   (effectDeps st = None \/ effectDeps st <> Some deps)) /\
  (List.length (filter (Call_eqb close_called) calls) <= 1)%nat /\
  (In Swipeable_close_called calls <-> In close_called calls /\ ref <> None) /\
  (exists st',
     fst (render Swipeable_close props ref st) = normal st' /\
     effectDeps st' = Some deps /\
     rowRef st' =
       if existsb (Call_eqb close_called) calls
       then option_map Swipeable_close ref
       else ref) /\
  (rowRef st = None ->
   close Swipeable_close st = (normal st, [close_called])) /\
  (exists st', fst (close Swipeable_close st) = normal st').
Proof.
  intros calls deps.
  pose proof (depsChanged_spec (effectDeps st) deps) as Hdeps.
  pose proof (render_outcome Swipeable_close props ref st) as [Hfst Hsnd].
  fold deps in Hfst, Hsnd.
  set (runs := depsChanged (effectDeps st) deps
               && isScrolling props && closeOnScroll props) in *.
  assert (Hruns : runs = true <->
    isScrolling props = true /\ closeOnScroll props = true /\
    (effectDeps st = None \/ effectDeps st <> Some deps)).
  { unfold runs. rewrite !andb_true_iff, Hdeps. tauto. }
  assert (Hin : In close_called calls <-> runs = true).
  { unfold calls. rewrite Hsnd. destruct runs; cbn.
    - split; [reflexivity | intros _; now left].
    - split; [intros [] | discriminate]. }
  split; [now rewrite Hin |].
  split.
  { unfold calls. rewrite Hsnd. destruct runs, ref; cbn; lia. }
  split.
  { rewrite Hin. unfold calls. rewrite Hsnd.
    destruct runs, ref as [h |]; cbn; split.
    - intros _. split; [reflexivity | discriminate].
    - intros _. right. now left.
    - intros [[=] | []].
    - intros [_ H]. now contradiction H.
    - intros [].
    - intros [[=] _].
    - intros [].
    - intros [[=] _]. }
  split.
  { eexists. split; [exact Hfst |]. split; [reflexivity |].
    unfold calls. rewrite Hsnd. cbn [rowRef]. now destruct runs, ref. }
  split.
  - intros Hnone. unfold close. now rewrite Hnone.
  - apply close_normal.
Qed.

(** C9 as stated fails: a row rendered a second time with [isScrolling]
    and [closeOnScroll] still both true does not invoke [close]. *)
Lemma unchanged_props_counterexample :
  let props := {| isScrolling := true; closeOnScroll := true |} in
  let first := {| rowRef := Some true; effectDeps := None |} in
  let second := {| rowRef := Some false; effectDeps := Some (true, true) |} in
  render negb props (Some true) first =
  (normal second, [close_called; Swipeable_close_called]) /\
  isScrolling props = true /\
  closeOnScroll props = true /\
  render negb props (Some true) second =
  (normal {| rowRef := Some true; effectDeps := Some (true, true) |}, []) /\
  ~ In close_called (snd (render negb props (Some true) second)).
Proof.
  cbn zeta. repeat split. intros [].
Qed.

End ActionsRowFacts.

(** ** The list of the left/right-actions variant *)

Module ActionsListFacts.

Import ActionsList.

Lemma scroll_snoc (props : Props) (es : list ScrollEvent) (e : ScrollEvent)
    (st : State) :
  scroll props (es ++ [e]) st =
  (fst (onScrollEvent props e (fst (scroll props es st))),
   snd (scroll props es st)
   ++ snd (onScrollEvent props e (fst (scroll props es st)))).
Proof.
  revert st. induction es as [| e' es IH]; intros st.
  - cbn [app scroll fst snd].
    destruct (onScrollEvent props e st) as [st1 l1].
    cbn [fst snd app]. now rewrite app_nil_r.
  - cbn [app scroll]. destruct (onScrollEvent props e' st) as [st1 l1].
    rewrite IH. destruct (scroll props es st1) as [st2 l2]. cbn [fst snd].
    now rewrite app_assoc.
Qed.

(** X15.  After any history of drag events, [isScrolling] tells whether
    the last one was a scroll-begin: a begin sets it and an end clears it,
    whatever came before, repeated or unpaired events included. *)
Theorem isScrolling_tracks_last_event (props : Props)
    (es : list ScrollEvent) (e : ScrollEvent) (st : State) :
  isScrolling (fst (scroll props (es ++ [e]) st)) =
  match e with
  | scrollBeginDrag => true
  | scrollEndDrag => false
  end.
Proof.
  rewrite scroll_snoc. cbn [fst].
  destruct (fst (scroll props es st)) as [[|]]; destruct e; reflexivity.
Qed.

(** X16.  Every drag event, the end of a drag as well as its beginning, is
    forwarded to the caller's [onScrollBeginDrag] when one is supplied;
    nothing is ever forwarded to the caller's [onScrollEndDrag]. *)
Theorem drag_events_forwarded_to_begin_handler (props : Props)
    (es : list ScrollEvent) (st : State) :
  snd (scroll props es st) =
  (if onScrollBeginDrag props
   then repeat to_onScrollBeginDrag (List.length es)
   else []) /\
  ~ In to_onScrollEndDrag (snd (scroll props es st)).
Proof.
  assert (Hlog :
    snd (scroll props es st) =
    if onScrollBeginDrag props
    then repeat to_onScrollBeginDrag (List.length es)
    else []).
  { revert st. induction es as [| e es IH]; intros st.
    - now destruct (onScrollBeginDrag props).
    - cbn [scroll]. destruct (onScrollEvent props e st) as [st1 l1] eqn:He.
      specialize (IH st1). destruct (scroll props es st1) as [st2 l2].
      cbn [snd] in *. subst l2.
      assert (l1 = if onScrollBeginDrag props
                   then [to_onScrollBeginDrag] else []) as ->.
      { destruct e; cbn in He; now injection He as _ <-. }
      now destruct (onScrollBeginDrag props). }
  split; [exact Hlog |].
  rewrite Hlog. destruct (onScrollBeginDrag props); [| easy].
  intros Hin. apply repeat_spec in Hin. discriminate.
Qed.

End ActionsListFacts.

(** ** Rows of the left/right-actions variant under the list *)

Module ActionsRowMoreFacts.

Import ActionsRow.

(** X17.  A render never throws.  When neither [isScrolling] nor
    [closeOnScroll] changed since the effect last ran, it calls nothing and
    leaves the handle as it is: a row is closed at most once per change,
    so a row reopened while the list is still scrolling stays open. *)
Theorem render_closes_once_per_change (Swipeable : Type)
    (Swipeable_close : Swipeable -> Swipeable)
    (props : Props) (ref ref' : option Swipeable) (st : State Swipeable) :
  exists st1,
    fst (render Swipeable_close props ref st) = normal st1 /\
    effectDeps st1 = Some (closeOnScroll props, isScrolling props) /\
    render Swipeable_close props ref' st1 =
    (normal {| rowRef := ref'; effectDeps := effectDeps st1 |}, []).
Proof.
  unfold render, effect, close, rowRef_current_close.
  destruct (depsChanged (effectDeps st) (closeOnScroll props, isScrolling props));
    destruct (isScrolling props), (closeOnScroll props), ref;
    cbn; eexists; (split; [reflexivity |]); split; reflexivity.
Qed.

(** X18.  Under the list: when a drag begins on a list that was not
    scrolling, a row rendered before with the list's props is closed on its
    next render, by one call of its handle's [close], unless the list was
    given [closeOnScroll = false]; and with [closeOnScroll = false] no
    render of a row, in any state of the list, calls anything. *)
Theorem rows_close_when_drag_begins (Swipeable : Type)
    (Swipeable_close : Swipeable -> Swipeable)
    (listProps : ActionsList.Props) (list : ActionsList.State)
    (h : Swipeable) (ref : option Swipeable) (st : State Swipeable) :
  let before := ActionsList._renderItem listProps list in
  let dragging :=
    ActionsList._renderItem listProps
      (fst (ActionsList._onScrollBeginDrag listProps list)) in
  (ActionsList.isScrolling list = false ->
   ActionsList.closeOnScroll listProps <> Some false ->
   effectDeps st = Some (closeOnScroll before, isScrolling before) ->
   render Swipeable_close dragging (Some h) st =
   (normal {| rowRef := Some (Swipeable_close h);
              effectDeps := Some (true, true) |},
    [close_called; Swipeable_close_called])) /\
  (ActionsList.closeOnScroll listProps = Some false ->
   snd (render Swipeable_close before ref st) = [] /\
   fst (render Swipeable_close before ref st) =
   normal {| rowRef := ref;
             effectDeps := Some (false, ActionsList.isScrolling list) |}).
Proof.
  cbn zeta. unfold ActionsList._renderItem, ActionsList._onScrollBeginDrag.
  split.
  - intros Hidle Hclose Hdeps. rewrite Hidle. cbn [negb fst].
    unfold render. cbn [closeOnScroll isScrolling ActionsList.isScrolling].
    rewrite Hdeps. cbn [closeOnScroll isScrolling]. rewrite Hidle.
    destruct (ActionsList.closeOnScroll listProps) as [[|] |];
      try (now contradiction Hclose); reflexivity.
  - intros ->. unfold render, effect.
    cbn [JS.orDefault closeOnScroll isScrolling]. rewrite andb_false_r.
    now destruct (depsChanged (effectDeps st) _).
Qed.

Lemma rows_close_when_drag_begins_witness :
  let listProps :=
    {| ActionsList.closeOnScroll := None;
       ActionsList.onScrollBeginDrag := false;
       ActionsList.onScrollEndDrag := false |} in
  render negb
    (ActionsList._renderItem listProps
       (fst (ActionsList._onScrollBeginDrag listProps ActionsList.initial)))
    (Some true)
    {| rowRef := Some true; effectDeps := Some (true, false) |} =
  (normal {| rowRef := Some false; effectDeps := Some (true, true) |},
   [close_called; Swipeable_close_called]).
Proof.
  intros listProps.
  apply (rows_close_when_drag_begins negb listProps ActionsList.initial
           true None {| rowRef := Some true; effectDeps := Some (true, false) |}).
  - reflexivity.
  - discriminate.
  - reflexivity.
Defined.

End ActionsRowMoreFacts.

(** ** The quick-actions container *)

Module QuickActionsFacts.

Import QuickActions.

Section Facts.

Variable ReactNode : Type.

Lemma childrenOf_pushFrom (i length : nat) (rest : list ReactNode) :
  childrenOf (pushFrom i length rest) = rest.
Proof.
  revert i. induction rest as [| c rest IH]; intros i; [reflexivity |].
  cbn [pushFrom childrenOf]. destruct (i <? length - 1)%nat; cbn;
    now rewrite IH.
Qed.

Lemma dividerKeys_pushFrom (i length : nat) (rest : list ReactNode) :
  (i + List.length rest = length)%nat ->
  dividerKeys (pushFrom i length rest) = seq i (List.length rest - 1).
Proof.
  revert i. induction rest as [| c rest IH]; intros i Hlen; [reflexivity |].
  cbn [pushFrom dividerKeys List.length] in *.
  destruct rest as [| c' rest].
  - cbn [List.length] in Hlen.
    assert ((i <? length - 1)%nat = false) as ->
      by (apply Nat.ltb_ge; lia).
    reflexivity.
  - cbn [List.length] in Hlen.
    assert ((i <? length - 1)%nat = true) as ->
      by (apply Nat.ltb_lt; lia).
    cbn [app dividerKeys]. rewrite IH by (cbn [List.length]; lia).
    cbn [List.length]. replace (S (S (List.length rest)) - 1)%nat
      with (S (List.length rest)) by lia.
    replace (S (List.length rest) - 1)%nat with (List.length rest) by lia.
    reflexivity.
Qed.

Lemma length_pushFrom (i length : nat) (rest : list ReactNode) :
  (i + List.length rest = length)%nat ->
  List.length (pushFrom i length rest) = (2 * List.length rest - 1)%nat.
Proof.
  revert i. induction rest as [| c rest IH]; intros i Hlen; [reflexivity |].
  cbn [pushFrom List.length] in *. rewrite length_app.
  rewrite IH by lia.
  destruct rest as [| c' rest]; cbn [List.length] in *.
  - assert ((i <? length - 1)%nat = false) as ->
      by (apply Nat.ltb_ge; lia).
    reflexivity.
  - assert ((i <? length - 1)%nat = true) as ->
      by (apply Nat.ltb_lt; lia).
    cbn [List.length]. lia.
Qed.

Lemma nth_pushFrom (i length : nat) (rest : list ReactNode) (k : nat) :
  (i + List.length rest = length)%nat ->
  nth_error (pushFrom i length rest) (2 * k) =
    option_map (@child ReactNode) (nth_error rest k) /\
  nth_error (pushFrom i length rest) (2 * k + 1) =
    if (k + 1 <? List.length rest)%nat
    then Some (divider ReactNode (i + k))
    else None.
Proof.
  revert i k. induction rest as [| c rest IH]; intros i k Hlen.
  - cbn [pushFrom List.length]. rewrite !nth_error_nil. split; reflexivity.
  - cbn [pushFrom List.length] in *.
    destruct rest as [| c' rest].
    + assert ((i <? length - 1)%nat = false) as ->
        by (apply Nat.ltb_ge; cbn [List.length] in Hlen; lia).
      cbn [app pushFrom List.length]. destruct k as [| k].
      * split; reflexivity.
      * replace (2 * S k)%nat with (S (S (2 * k))) by lia.
        replace (S (S (2 * k)) + 1)%nat with (S (S (2 * k + 1))) by lia.
        cbn [nth_error].
        assert ((S k + 1 <? 1)%nat = false) as ->
          by (apply Nat.ltb_ge; lia).
        rewrite !nth_error_nil. split; reflexivity.
    + assert ((i <? length - 1)%nat = true) as ->
        by (apply Nat.ltb_lt; cbn [List.length] in Hlen; lia).
      cbn [app]. destruct k as [| k].
      * split; [reflexivity |]. cbn. now rewrite Nat.add_0_r.
      * replace (2 * S k)%nat with (S (S (2 * k))) by lia.
        replace (S (S (2 * k)) + 1)%nat with (S (S (2 * k + 1))) by lia.
        cbn [nth_error].
        destruct (IH (S i) k) as [Heven Hodd];
          [cbn [List.length] in *; lia |].
        rewrite Heven, Hodd. split; [reflexivity |].
        replace (S i + k)%nat with (i + S k)%nat by lia.
        change (S k + 1 <? S (List.length (c' :: rest)))%nat
          with (k + 1 <? List.length (c' :: rest))%nat.
        reflexivity.
Qed.

End Facts.

(** X19.  For an array of children the container renders every child
    once and in order, with a divider between consecutive children and none
    before the first or after the last: [2n - 1] elements for [n >= 1]
    children and none for an empty array, the dividers carrying the keys
    [0 .. n-2], all distinct.  Anything that is not an array is rendered as
    the single child, without dividers. *)
Theorem buttons_interleave_dividers (ReactNode : Type)
    (children : list ReactNode) (single : ReactNode) :
  let bs := buttons (array children) in
  childrenOf bs = children /\
  dividerKeys bs = seq 0 (List.length children - 1) /\
  NoDup (dividerKeys bs) /\
  List.length bs = (2 * List.length children - 1)%nat /\
  (forall k,
     nth_error bs (2 * k) = option_map (@child ReactNode) (nth_error children k) /\
     nth_error bs (2 * k + 1) =
       if (k + 1 <? List.length children)%nat
       then Some (divider ReactNode k)
       else None) /\
  buttons (notArray single) = [child single].
Proof.
  intros bs. subst bs. unfold buttons.
  assert (Hkeys :
    dividerKeys (pushFrom 0 (List.length children) children) =
    seq 0 (List.length children - 1))
    by now apply dividerKeys_pushFrom.
  split; [apply childrenOf_pushFrom |].
  split; [exact Hkeys |].
  split; [rewrite Hkeys; apply seq_NoDup |].
  split; [now apply length_pushFrom |].
  split; [| reflexivity].
  intros k. now apply (nth_pushFrom 0 children k).
Qed.

End QuickActionsFacts.

(** ** The quick-action button *)

Module QuickActionButtonFacts.

Import QuickActionButton.

(** X20.  The button renders nothing exactly when [imageSource] and [text]
    are both falsy ([undefined], the number 0, the empty string).  When it
    renders, there is always a [Text] carrying [text] as given, and an
    [Image] exactly when [imageSource] is truthy, carrying that source; so
    a button given only a falsy image and a text shows the text alone, and
    one given only an image shows the image with an empty text. *)
Theorem button_renders_iff_content (Object Style Callback : Type)
    (props : Props Object Style Callback) :
  let rendered := SwipeableQuickActionButton props in
  (rendered = None <->
   truthyImageSource (imageSource props) = false /\
   truthyText (text props) = false) /\
  (forall b,
     rendered = Some b ->
     text_children (view_text b) = text props /\
     text_style (view_text b) = textStyle props /\
     touchable_onPress b = onPress props /\
     (truthyImageSource (imageSource props) = true <->
      exists i, view_image b = Some i) /\
     (forall i,
        view_image b = Some i ->
        imageSource props = Some (image_source i) /\
        image_accessibilityLabel i = accessibilityLabel props)) /\
  (truthyImageSource (imageSource props) = false <->
   imageSource props = None \/
   exists id, imageSource props = Some (resource Object id) /\ id == 0) /\
  (truthyText (text props) = false <->
   text props = None \/ text props = Some (textString Object "")).
Proof.
  intros rendered. subst rendered. unfold SwipeableQuickActionButton.
  split; [| split; [| split]].
  - destruct (truthyImageSource (imageSource props)),
      (truthyText (text props)); cbn; split;
      try discriminate; try tauto; intros [? ?]; discriminate.
  - intros b Hb.
    destruct (truthyImageSource (imageSource props)) eqn:HI.
    + cbn [negb andb] in Hb. injection Hb as <-.
      cbn [view_text text_children text_style touchable_onPress view_image].
      destruct (imageSource props) as [source |] eqn:Hi;
        [| cbn in HI; discriminate].
      repeat split; trivial.
      * intros _. eexists. reflexivity.
      * injection H as <-. reflexivity.
      * injection H as <-. reflexivity.
    + destruct (truthyText (text props)) eqn:HT;
        cbn [negb andb] in Hb; [| discriminate]. injection Hb as <-.
      cbn [view_text text_children text_style touchable_onPress view_image].
      assert (Hnone :
        match imageSource props with
        | Some _ => @None (Image Object Style)
        | None => None
        end = None) by now destruct (imageSource props).
      rewrite Hnone. repeat split; trivial; try discriminate.
      now intros [i [=]].
  - destruct (imageSource props) as [[id | o] |]; cbn.
    + rewrite negb_false_iff, Qeq_bool_iff. split.
      * intros Hid. right. now exists id.
      * intros [[=] | (id' & [= <-] & Hid)]. exact Hid.
    + split; [discriminate | intros [[=] | (id & [=] & _)]].
    + split; [now left | reflexivity].
  - destruct (text props) as [[str | o | items] |]; cbn.
    + rewrite negb_false_iff, String.eqb_eq. split.
      * intros ->. now right.
      * now intros [[=] | [= ->]].
    + split; [discriminate | intros [[=] | [=]]].
    + split; [discriminate | intros [[=] | [=]]].
    + split; [now left | reflexivity].
Qed.

End QuickActionButtonFacts.

(** ** A gesture on a row of the quick-actions list *)

Module GestureFacts.

Import QuickActionsList.

Section Facts.

Variables ItemT ReactNode : Type.
Variable props : Props ItemT ReactNode.

(** The callbacks of a rendered row are the list's, closed over its key. *)
Lemma rendered_row_callbacks (st : State) (info : ListRenderItemInfo ItemT)
    (r : RowElement ReactNode) :
  _renderItem props st info = SwipeableRow r ->
  onOpen r = _onOpen (keyOf props info) /\
  onClose r = _onClose (keyOf props info) /\
  onSwipeEnd r = _setListViewScrollable /\
  onSwipeStart r = _setListViewNotScrollable /\
  exists view,
    JS.orDefault (fun _ => None) (renderQuickActions props) info = Some view.
Proof.
  unfold _renderItem.
  destruct (JS.orDefault _ (renderQuickActions props) info) as [view |];
    [| discriminate].
  intros [= <-]. cbn. repeat split. now exists view.
Qed.

Lemma deliverAll_app (r : RowElement ReactNode)
    (ns ns' : list Row.Notification) (st : State) :
  deliverAll r (ns ++ ns') st = deliverAll r ns' (deliverAll r ns st).
Proof. unfold deliverAll. apply fold_left_app. Qed.

(** Delivering the [onSwipeStart]s of a drag to a mounted list. *)
Lemma deliver_swipe_starts (r : RowElement ReactNode) (A : Type)
    (xs : list A) (st : State) (ref : FlatList) :
  onSwipeStart r = _setListViewNotScrollable ->
  _flatListRef st = Some ref ->
  openRowKey (deliverAll r (map (fun _ => Row.onSwipeStart) xs) st) =
    openRowKey st /\
  exists ref',
    _flatListRef (deliverAll r (map (fun _ => Row.onSwipeStart) xs) st) =
    Some ref'.
Proof.
  intros Hstart. revert st ref.
  induction xs as [| x xs IH]; intros st ref Href.
  - split; [reflexivity | now exists ref].
  - cbn [map]. unfold deliverAll. cbn [fold_left deliver].
    fold (deliverAll r (map (fun _ => Row.onSwipeStart) xs)
            (onSwipeStart r st)).
    rewrite Hstart.
    assert (Hlocked :
      _flatListRef (_setListViewNotScrollable st) =
      Some {| scrollEnabled := false |} /\
      openRowKey (_setListViewNotScrollable st) = openRowKey st).
    { unfold _setListViewNotScrollable, _setListViewScrollableTo.
      now rewrite Href. }
    destruct Hlocked as [Href' Hkey].
    destruct (IH _ _ Href') as [IHkey IHref].
    split; [now rewrite IHkey | exact IHref].
Qed.

End Facts.

(** X21.  A whole gesture on a rendered row of a mounted list, any drag
    followed by a release or termination, with the row's notifications
    delivered to the list in order: the list ends up scrollable again; its
    open key is the row's key if the row notified [onOpen], none if it
    notified [onClose], and unchanged otherwise.  In particular a rightward
    swipe from closed, which the row itself answers with the bounce, leaves
    that row rendered with [isOpen = true], so that the row's effect on
    [isOpen] then starts the animation to the open offset. *)
Theorem gesture_reaches_list (ItemT ReactNode : Type)
    (props : Props ItemT ReactNode) (info : ListRenderItemInfo ItemT)
    (r : RowElement ReactNode) (st : State) (ref : FlatList)
    (IS_RTL : bool) (gs : list Row.GestureState) (g : Row.GestureState)
    (row : Row.State) :
  _renderItem props st info = SwipeableRow r ->
  _flatListRef st = Some ref ->
  Row.wellFormed row ->
  let dragged := Row.exec (HostRow.drag IS_RTL (rowProps r) gs) row in
  let gesture :=
    Row.bind (HostRow.drag IS_RTL (rowProps r) gs)
      (fun _ =>
         HostRow.fire IS_RTL (rowProps r) (HostRow.onPanResponderRelease g)) in
  let ns := Row.log gesture row in
  let st' := deliverAll r ns st in
  _flatListRef st' = Some {| scrollEnabled := true |} /\
  (In Row.onOpen ns -> openRowKey st' = Some (keyOf props info)) /\
  (In Row.onClose ns -> openRowKey st' = None) /\
  (~ In Row.onOpen ns -> ~ In Row.onClose ns ->
   openRowKey st' = openRowKey st) /\
  (Row.value (Row._isSwipingRightFromClosed IS_RTL g) dragged = true ->
   In Row.onOpen ns /\
   exists r',
     _renderItem props st' info = SwipeableRow r' /\
     Row.isOpen (rowProps r') = true /\
     Row.maxSwipeDistance (rowProps r') = _getMaxSwipeDistance props info /\
     forall row',
       Row.inFlight
         (Row.exec (Row.fire IS_RTL (rowProps r') Row.isOpenChanged) row') =
       Some (Row.animation (Row.openOffset IS_RTL (rowProps r')) 300
               Row.emptyFunction)).
Proof.
  intros Hrow Href Hwf dragged gesture ns st'.
  destruct (rendered_row_callbacks props st info Hrow)
    as (Hopen & Hclose & Hend & Hstart & view & Hview).
  destruct (HostRowFacts.drag_log IS_RTL (rowProps r) gs Hwf)
    as [[xs Hxs] Hwfd].
  fold dragged in Hwfd.
  assert (Hrelease :
    Row.log
      (HostRow.fire IS_RTL (rowProps r) (HostRow.onPanResponderRelease g))
      dragged =
    Row.log (Row._handlePanResponderEnd IS_RTL (rowProps r) g) dragged).
  { cbn [HostRow.fire]. unfold Row.log at 1.
    now rewrite HostRowFacts.release_eq by exact Hwfd. }
  set (starts := map (fun _ => Row.onSwipeStart) xs) in *.
  assert (Hns :
    ns =
    starts
    ++ Row.log (Row._handlePanResponderEnd IS_RTL (rowProps r) g) dragged).
  { unfold ns, gesture. rewrite RowFacts.log_bind. cbn beta. fold dragged.
    now rewrite Hxs, Hrelease. }
  destruct (deliver_swipe_starts r xs st Hstart Href) as (Hkey & ref' & Href').
  fold starts in Hkey, Href'.
  assert (Hstarts : forall n, In n starts -> n = Row.onSwipeStart).
  { intros n Hin. unfold starts in Hin.
    apply in_map_iff in Hin as (_ & <- & _). reflexivity. }
  assert (Hscroll : forall st0 ref0,
    _flatListRef st0 = Some ref0 ->
    _flatListRef (_setListViewScrollable st0) =
      Some {| scrollEnabled := true |} /\
    openRowKey (_setListViewScrollable st0) = openRowKey st0).
  { intros st0 ref0 H0.
    unfold _setListViewScrollable, _setListViewScrollableTo.
    now rewrite H0. }
  assert (Hst' :
    st' =
    deliverAll r
      (Row.log (Row._handlePanResponderEnd IS_RTL (rowProps r) g) dragged)
      (deliverAll r starts st))
    by (unfold st'; now rewrite Hns, deliverAll_app).
  assert (Hbounce :
    Row.value (Row._isSwipingRightFromClosed IS_RTL g) dragged = true ->
    Row.log (Row._handlePanResponderEnd IS_RTL (rowProps r) g) dragged =
    [Row.onOpen; Row.onSwipeEnd]).
  { intros Hright. unfold Row.log.
    now rewrite RowFacts.handlePanResponderEnd_eq, Hright. }
  assert (Hrerender : openRowKey st' = Some (keyOf props info) ->
    exists r',
      _renderItem props st' info = SwipeableRow r' /\
      Row.isOpen (rowProps r') = true /\
      Row.maxSwipeDistance (rowProps r') = _getMaxSwipeDistance props info /\
      forall row',
        Row.inFlight
          (Row.exec (Row.fire IS_RTL (rowProps r') Row.isOpenChanged) row') =
        Some (Row.animation (Row.openOffset IS_RTL (rowProps r')) 300
                Row.emptyFunction)).
  { intros Hk.
    pose proof (QuickActionsListFacts.isOpenRow_own_key props st' info
                  Hview Hk) as Hisopen.
    unfold _renderItem in *. rewrite Hview in *.
    eexists. split; [reflexivity |].
    cbn [isOpenRow rowProps Row.isOpen] in Hisopen.
    cbn [rowProps Row.isOpen Row.maxSwipeDistance].
    split; [exact Hisopen |]. split; [reflexivity |].
    intros row'. cbn [Row.fire]. unfold Row.isOpenEffect.
    cbn [Row.isOpen]. rewrite Hisopen.
    destruct IS_RTL; reflexivity. }
  destruct (RowFacts.release_log IS_RTL (rowProps r) g dragged)
    as [Hlog | [Hlog | Hlog]];
    rewrite Hlog in Hst', Hns, Hbounce;
    unfold deliverAll at 1 in Hst'; cbn [fold_left deliver] in Hst';
    rewrite ?Hopen, ?Hclose, ?Hend in Hst'.
  - destruct (Hscroll _ _ Href') as [Hr Hk]. rewrite <- Hst' in Hr, Hk.
    split; [exact Hr |].
    split.
    { intros Hin. rewrite Hns in Hin. apply in_app_or in Hin as [Hin | Hin].
      - apply Hstarts in Hin. discriminate.
      - destruct Hin as [[=] | []]. }
    split.
    { intros Hin. rewrite Hns in Hin. apply in_app_or in Hin as [Hin | Hin].
      - apply Hstarts in Hin. discriminate.
      - destruct Hin as [[=] | []]. }
    split; [intros _ _; now rewrite Hk, Hkey |].
    intros Hright. specialize (Hbounce Hright). discriminate.
  - assert (Hopened :
      _flatListRef (_onOpen (keyOf props info) (deliverAll r starts st)) =
      Some ref') by exact Href'.
    destruct (Hscroll _ _ Hopened) as [Hr Hk]. rewrite <- Hst' in Hr, Hk.
    cbn in Hk.
    assert (Hin : In Row.onOpen ns)
      by (rewrite Hns; apply in_or_app; right; now left).
    split; [exact Hr |].
    split; [intros _; exact Hk |].
    split.
    { intros Hc. rewrite Hns in Hc. apply in_app_or in Hc as [Hc | Hc].
      - apply Hstarts in Hc. discriminate.
      - destruct Hc as [[=] | [[=] | []]]. }
    split; [intros Hno; now contradiction Hno |].
    intros _. split; [exact Hin | now apply Hrerender].
  - assert (Hclosed :
      _flatListRef (_onClose (keyOf props info) (deliverAll r starts st)) =
      Some ref') by exact Href'.
    destruct (Hscroll _ _ Hclosed) as [Hr Hk]. rewrite <- Hst' in Hr, Hk.
    cbn in Hk.
    split; [exact Hr |].
    split.
    { intros Hin. rewrite Hns in Hin. apply in_app_or in Hin as [Hin | Hin].
      - apply Hstarts in Hin. discriminate.
      - destruct Hin as [[=] | [[=] | []]]. }
    split; [intros _; exact Hk |].
    split.
    { intros _ Hno. exfalso. apply Hno. rewrite Hns. apply in_or_app.
      right. now left. }
    intros Hright. specialize (Hbounce Hright). discriminate.
Qed.

Lemma gesture_reaches_list_witness :
  let st := attachRef (Some {| scrollEnabled := true |}) initial in
  let info := {| item := "a"%string; index := 0 |} in
  exists r,
    _renderItem keyedByIndex st info = SwipeableRow r /\
    Row.wellFormed Row.initial /\
    _flatListRef
      (deliverAll r
         (Row.log
            (Row.bind (HostRow.drag false (rowProps r) [Row.nudgeRight])
               (fun _ =>
                  HostRow.fire false (rowProps r)
                    (HostRow.onPanResponderRelease Row.nudgeRight)))
            Row.initial) st) =
    Some {| scrollEnabled := true |}.
Proof.
  intros st info.
  assert (Hwf : Row.wellFormed Row.initial) by (intros t [=]).
  eexists. split; [reflexivity |]. split; [exact Hwf |].
  apply (@gesture_reaches_list _ _ keyedByIndex info _ st
           {| scrollEnabled := true |} false [Row.nudgeRight] Row.nudgeRight
           Row.initial).
  - reflexivity.
  - reflexivity.
  - exact Hwf.
Defined.

End GestureFacts.
